(** * Marker reconciliation: a model of [internal/entity/marker.go]

    Markers are detected image regions that are reconciled against face
    clusters and named subjects.  This development embeds the operations of
    [marker.go] as state transformers over an explicit storage state and
    proves the properties the specification states about them.

    Conventions of the embedding:
    - a Go [float32] / [float64] is an IEEE-754 value of the Standard
      Library's [spec_float], with the binary32 / binary64 parameters where
      arithmetic is performed; comparisons are [SFeqb], [SFltb], [SFleb];
    - a pointer receiver is passed in and the updated object is returned;
    - a Go [error] is an [option error], [None] playing the role of [nil];
    - storage calls go through the tables of [Store] and may fail on the
      say-so of an explicit fault queue;
    - functions of the repository that live outside [marker.go] are the
      fields of the class [Collaborators];
    - logging is not modelled. *)

From Stdlib Require Import ZArith NArith List Ascii String Bool Lia.
From Stdlib Require Import Floats.SpecFloat.
Import ListNotations.

Local Open Scope Z_scope.
Local Open Scope string_scope.

(** ** Numbers *)

Definition float32 := spec_float.
Definition float64 := spec_float.

(** Constants and arithmetic of Go's [float32]. *)
Module F32.
Definition prec : Z := 24.
Definition emax : Z := 128.
Definition ofZ (z : Z) : float32 := binary_normalize prec emax z 0 false.
Definition zero : float32 := S754_zero false.
Definition one : float32 := Eval cbv in ofZ 1.
Definition minus_one : float32 := Eval cbv in ofZ (-1).
Definition add (x y : float32) : float32 := SFadd prec emax x y.
Definition sub (x y : float32) : float32 := SFsub prec emax x y.
Definition div (x y : float32) : float32 := SFdiv prec emax x y.
End F32.

(** Constants and arithmetic of Go's [float64]. *)
Module F64.
Definition prec : Z := 53.
Definition emax : Z := 1024.
Definition ofZ (z : Z) : float64 := binary_normalize prec emax z 0 false.
Definition zero : float64 := S754_zero false.
Definition minus_one : float64 := Eval cbv in ofZ (-1).
Definition add (x y : float64) : float64 := SFadd prec emax x y.
Definition sub (x y : float64) : float64 := SFsub prec emax x y.
Definition mul (x y : float64) : float64 := SFmul prec emax x y.
Definition div (x y : float64) : float64 := SFdiv prec emax x y.
Definition sqrt (x : float64) : float64 := SFsqrt prec emax x.
End F64.

(** ** Data model *)

Definition Time := Z.
Definition RawMessage := list Byte.byte.
Definition Embedding := list float64.
Definition Embeddings := list Embedding.

(** Go errors, by where they are made: [Errorf] by [fmt.Errorf] in
    [marker.go], [StorageError] by the storage layer, [CollaboratorError] by
    a function outside [marker.go]. *)
Inductive error : Type :=
| Errorf (msg : string)
| StorageError (msg : string)
| CollaboratorError (msg : string).

Definition error_string (e : error) : string :=
  match e with
  | Errorf s => s
  | StorageError s => s
  | CollaboratorError s => s
  end.

(** Modelled from the spec: the [Subject] entity, whose declaration is not in
    [marker.go]: a unique id and a display name. *)
Record Subject : Type := {
  subj_SubjectUID : string;
  subj_SubjectName : string
}.

(** Modelled from the spec: the [Face] entity, whose declaration is not in
    [marker.go]: a content-derived id, an optional bound subject (empty when
    absent), the reference embedding returned by [Embedding()], and the
    collision log, kept as a count. *)
Record Face : Type := {
  face_ID : string;
  face_SubjectUID : string;
  face_Embedding : Embedding;
  face_Collisions : Z
}.

Definition set_face_SubjectUID (v : string) (f : Face) : Face :=
  {| face_ID := face_ID f; face_SubjectUID := v;
     face_Embedding := face_Embedding f; face_Collisions := face_Collisions f |}.

Definition MarkerUnknown : string := "".
Definition MarkerFace : string := "face".
Definition MarkerLabel : string := "label".

(** [type Marker struct].  [SubjectRef] and [FaceRef] are the pointer fields
    [Subject] and [Face]; [CreatedAt] and [UpdatedAt], which only the ORM
    stamps and [marker.go] never reads, are left out. *)
Record Marker : Type := {
  ID : N;
  FileID : N;
  MarkerType : string;
  MarkerSrc : string;
  MarkerName : string;
  SubjectUID : string;
  SubjectSrc : string;
  SubjectRef : option Subject;
  FaceID : string;
  FaceDist : float64;
  FaceRef : option Face;
  EmbeddingsJSON : RawMessage;
  embeddings : Embeddings;
  LandmarksJSON : RawMessage;
  X : float32;
  Y : float32;
  W : float32;
  H : float32;
  Size : Z;
  Score : Z;
  MarkerInvalid : bool;
  MatchedAt : option Time
}.

(** Field updates. *)

Definition set_ID (v : N) (m : Marker) : Marker :=
  {| ID := v; FileID := FileID m; MarkerType := MarkerType m; MarkerSrc := MarkerSrc m;
     MarkerName := MarkerName m; SubjectUID := SubjectUID m; SubjectSrc := SubjectSrc m;
     SubjectRef := SubjectRef m; FaceID := FaceID m; FaceDist := FaceDist m;
     FaceRef := FaceRef m; EmbeddingsJSON := EmbeddingsJSON m; embeddings := embeddings m;
     LandmarksJSON := LandmarksJSON m; X := X m; Y := Y m; W := W m; H := H m; Size := Size m;
     Score := Score m; MarkerInvalid := MarkerInvalid m; MatchedAt := MatchedAt m |}.

Definition set_MarkerName (v : string) (m : Marker) : Marker :=
  {| ID := ID m; FileID := FileID m; MarkerType := MarkerType m; MarkerSrc := MarkerSrc m;
     MarkerName := v; SubjectUID := SubjectUID m; SubjectSrc := SubjectSrc m;
     SubjectRef := SubjectRef m; FaceID := FaceID m; FaceDist := FaceDist m;
     FaceRef := FaceRef m; EmbeddingsJSON := EmbeddingsJSON m; embeddings := embeddings m;
     LandmarksJSON := LandmarksJSON m; X := X m; Y := Y m; W := W m; H := H m; Size := Size m;
     Score := Score m; MarkerInvalid := MarkerInvalid m; MatchedAt := MatchedAt m |}.

Definition set_SubjectUID (v : string) (m : Marker) : Marker :=
  {| ID := ID m; FileID := FileID m; MarkerType := MarkerType m; MarkerSrc := MarkerSrc m;
     MarkerName := MarkerName m; SubjectUID := v; SubjectSrc := SubjectSrc m;
     SubjectRef := SubjectRef m; FaceID := FaceID m; FaceDist := FaceDist m;
     FaceRef := FaceRef m; EmbeddingsJSON := EmbeddingsJSON m; embeddings := embeddings m;
     LandmarksJSON := LandmarksJSON m; X := X m; Y := Y m; W := W m; H := H m; Size := Size m;
     Score := Score m; MarkerInvalid := MarkerInvalid m; MatchedAt := MatchedAt m |}.

Definition set_SubjectSrc (v : string) (m : Marker) : Marker :=
  {| ID := ID m; FileID := FileID m; MarkerType := MarkerType m; MarkerSrc := MarkerSrc m;
     MarkerName := MarkerName m; SubjectUID := SubjectUID m; SubjectSrc := v;
     SubjectRef := SubjectRef m; FaceID := FaceID m; FaceDist := FaceDist m;
     FaceRef := FaceRef m; EmbeddingsJSON := EmbeddingsJSON m; embeddings := embeddings m;
     LandmarksJSON := LandmarksJSON m; X := X m; Y := Y m; W := W m; H := H m; Size := Size m;
     Score := Score m; MarkerInvalid := MarkerInvalid m; MatchedAt := MatchedAt m |}.

Definition set_SubjectRef (v : option Subject) (m : Marker) : Marker :=
  {| ID := ID m; FileID := FileID m; MarkerType := MarkerType m; MarkerSrc := MarkerSrc m;
     MarkerName := MarkerName m; SubjectUID := SubjectUID m; SubjectSrc := SubjectSrc m;
     SubjectRef := v; FaceID := FaceID m; FaceDist := FaceDist m; FaceRef := FaceRef m;
     EmbeddingsJSON := EmbeddingsJSON m; embeddings := embeddings m;
     LandmarksJSON := LandmarksJSON m; X := X m; Y := Y m; W := W m; H := H m; Size := Size m;
     Score := Score m; MarkerInvalid := MarkerInvalid m; MatchedAt := MatchedAt m |}.

Definition set_FaceID (v : string) (m : Marker) : Marker :=
  {| ID := ID m; FileID := FileID m; MarkerType := MarkerType m; MarkerSrc := MarkerSrc m;
     MarkerName := MarkerName m; SubjectUID := SubjectUID m; SubjectSrc := SubjectSrc m;
     SubjectRef := SubjectRef m; FaceID := v; FaceDist := FaceDist m; FaceRef := FaceRef m;
     EmbeddingsJSON := EmbeddingsJSON m; embeddings := embeddings m;
     LandmarksJSON := LandmarksJSON m; X := X m; Y := Y m; W := W m; H := H m; Size := Size m;
     Score := Score m; MarkerInvalid := MarkerInvalid m; MatchedAt := MatchedAt m |}.

Definition set_FaceDist (v : float64) (m : Marker) : Marker :=
  {| ID := ID m; FileID := FileID m; MarkerType := MarkerType m; MarkerSrc := MarkerSrc m;
     MarkerName := MarkerName m; SubjectUID := SubjectUID m; SubjectSrc := SubjectSrc m;
     SubjectRef := SubjectRef m; FaceID := FaceID m; FaceDist := v; FaceRef := FaceRef m;
     EmbeddingsJSON := EmbeddingsJSON m; embeddings := embeddings m;
     LandmarksJSON := LandmarksJSON m; X := X m; Y := Y m; W := W m; H := H m; Size := Size m;
     Score := Score m; MarkerInvalid := MarkerInvalid m; MatchedAt := MatchedAt m |}.

Definition set_FaceRef (v : option Face) (m : Marker) : Marker :=
  {| ID := ID m; FileID := FileID m; MarkerType := MarkerType m; MarkerSrc := MarkerSrc m;
     MarkerName := MarkerName m; SubjectUID := SubjectUID m; SubjectSrc := SubjectSrc m;
     SubjectRef := SubjectRef m; FaceID := FaceID m; FaceDist := FaceDist m; FaceRef := v;
     EmbeddingsJSON := EmbeddingsJSON m; embeddings := embeddings m;
     LandmarksJSON := LandmarksJSON m; X := X m; Y := Y m; W := W m; H := H m; Size := Size m;
     Score := Score m; MarkerInvalid := MarkerInvalid m; MatchedAt := MatchedAt m |}.

Definition set_EmbeddingsJSON (v : RawMessage) (m : Marker) : Marker :=
  {| ID := ID m; FileID := FileID m; MarkerType := MarkerType m; MarkerSrc := MarkerSrc m;
     MarkerName := MarkerName m; SubjectUID := SubjectUID m; SubjectSrc := SubjectSrc m;
     SubjectRef := SubjectRef m; FaceID := FaceID m; FaceDist := FaceDist m;
     FaceRef := FaceRef m; EmbeddingsJSON := v; embeddings := embeddings m;
     LandmarksJSON := LandmarksJSON m; X := X m; Y := Y m; W := W m; H := H m; Size := Size m;
     Score := Score m; MarkerInvalid := MarkerInvalid m; MatchedAt := MatchedAt m |}.

Definition set_embeddings (v : Embeddings) (m : Marker) : Marker :=
  {| ID := ID m; FileID := FileID m; MarkerType := MarkerType m; MarkerSrc := MarkerSrc m;
     MarkerName := MarkerName m; SubjectUID := SubjectUID m; SubjectSrc := SubjectSrc m;
     SubjectRef := SubjectRef m; FaceID := FaceID m; FaceDist := FaceDist m;
     FaceRef := FaceRef m; EmbeddingsJSON := EmbeddingsJSON m; embeddings := v;
     LandmarksJSON := LandmarksJSON m; X := X m; Y := Y m; W := W m; H := H m; Size := Size m;
     Score := Score m; MarkerInvalid := MarkerInvalid m; MatchedAt := MatchedAt m |}.

Definition set_LandmarksJSON (v : RawMessage) (m : Marker) : Marker :=
  {| ID := ID m; FileID := FileID m; MarkerType := MarkerType m; MarkerSrc := MarkerSrc m;
     MarkerName := MarkerName m; SubjectUID := SubjectUID m; SubjectSrc := SubjectSrc m;
     SubjectRef := SubjectRef m; FaceID := FaceID m; FaceDist := FaceDist m;
     FaceRef := FaceRef m; EmbeddingsJSON := EmbeddingsJSON m; embeddings := embeddings m;
     LandmarksJSON := v; X := X m; Y := Y m; W := W m; H := H m; Size := Size m;
     Score := Score m; MarkerInvalid := MarkerInvalid m; MatchedAt := MatchedAt m |}.

Definition set_X (v : float32) (m : Marker) : Marker :=
  {| ID := ID m; FileID := FileID m; MarkerType := MarkerType m; MarkerSrc := MarkerSrc m;
     MarkerName := MarkerName m; SubjectUID := SubjectUID m; SubjectSrc := SubjectSrc m;
     SubjectRef := SubjectRef m; FaceID := FaceID m; FaceDist := FaceDist m;
     FaceRef := FaceRef m; EmbeddingsJSON := EmbeddingsJSON m; embeddings := embeddings m;
     LandmarksJSON := LandmarksJSON m; X := v; Y := Y m; W := W m; H := H m; Size := Size m;
     Score := Score m; MarkerInvalid := MarkerInvalid m; MatchedAt := MatchedAt m |}.

Definition set_Y (v : float32) (m : Marker) : Marker :=
  {| ID := ID m; FileID := FileID m; MarkerType := MarkerType m; MarkerSrc := MarkerSrc m;
     MarkerName := MarkerName m; SubjectUID := SubjectUID m; SubjectSrc := SubjectSrc m;
     SubjectRef := SubjectRef m; FaceID := FaceID m; FaceDist := FaceDist m;
     FaceRef := FaceRef m; EmbeddingsJSON := EmbeddingsJSON m; embeddings := embeddings m;
     LandmarksJSON := LandmarksJSON m; X := X m; Y := v; W := W m; H := H m; Size := Size m;
     Score := Score m; MarkerInvalid := MarkerInvalid m; MatchedAt := MatchedAt m |}.

Definition set_W (v : float32) (m : Marker) : Marker :=
  {| ID := ID m; FileID := FileID m; MarkerType := MarkerType m; MarkerSrc := MarkerSrc m;
     MarkerName := MarkerName m; SubjectUID := SubjectUID m; SubjectSrc := SubjectSrc m;
     SubjectRef := SubjectRef m; FaceID := FaceID m; FaceDist := FaceDist m;
     FaceRef := FaceRef m; EmbeddingsJSON := EmbeddingsJSON m; embeddings := embeddings m;
     LandmarksJSON := LandmarksJSON m; X := X m; Y := Y m; W := v; H := H m; Size := Size m;
     Score := Score m; MarkerInvalid := MarkerInvalid m; MatchedAt := MatchedAt m |}.

Definition set_H (v : float32) (m : Marker) : Marker :=
  {| ID := ID m; FileID := FileID m; MarkerType := MarkerType m; MarkerSrc := MarkerSrc m;
     MarkerName := MarkerName m; SubjectUID := SubjectUID m; SubjectSrc := SubjectSrc m;
     SubjectRef := SubjectRef m; FaceID := FaceID m; FaceDist := FaceDist m;
     FaceRef := FaceRef m; EmbeddingsJSON := EmbeddingsJSON m; embeddings := embeddings m;
     LandmarksJSON := LandmarksJSON m; X := X m; Y := Y m; W := W m; H := v; Size := Size m;
     Score := Score m; MarkerInvalid := MarkerInvalid m; MatchedAt := MatchedAt m |}.

Definition set_Size (v : Z) (m : Marker) : Marker :=
  {| ID := ID m; FileID := FileID m; MarkerType := MarkerType m; MarkerSrc := MarkerSrc m;
     MarkerName := MarkerName m; SubjectUID := SubjectUID m; SubjectSrc := SubjectSrc m;
     SubjectRef := SubjectRef m; FaceID := FaceID m; FaceDist := FaceDist m;
     FaceRef := FaceRef m; EmbeddingsJSON := EmbeddingsJSON m; embeddings := embeddings m;
     LandmarksJSON := LandmarksJSON m; X := X m; Y := Y m; W := W m; H := H m; Size := v;
     Score := Score m; MarkerInvalid := MarkerInvalid m; MatchedAt := MatchedAt m |}.

Definition set_Score (v : Z) (m : Marker) : Marker :=
  {| ID := ID m; FileID := FileID m; MarkerType := MarkerType m; MarkerSrc := MarkerSrc m;
     MarkerName := MarkerName m; SubjectUID := SubjectUID m; SubjectSrc := SubjectSrc m;
     SubjectRef := SubjectRef m; FaceID := FaceID m; FaceDist := FaceDist m;
     FaceRef := FaceRef m; EmbeddingsJSON := EmbeddingsJSON m; embeddings := embeddings m;
     LandmarksJSON := LandmarksJSON m; X := X m; Y := Y m; W := W m; H := H m; Size := Size m;
     Score := v; MarkerInvalid := MarkerInvalid m; MatchedAt := MatchedAt m |}.

Definition set_MarkerInvalid (v : bool) (m : Marker) : Marker :=
  {| ID := ID m; FileID := FileID m; MarkerType := MarkerType m; MarkerSrc := MarkerSrc m;
     MarkerName := MarkerName m; SubjectUID := SubjectUID m; SubjectSrc := SubjectSrc m;
     SubjectRef := SubjectRef m; FaceID := FaceID m; FaceDist := FaceDist m;
     FaceRef := FaceRef m; EmbeddingsJSON := EmbeddingsJSON m; embeddings := embeddings m;
     LandmarksJSON := LandmarksJSON m; X := X m; Y := Y m; W := W m; H := H m; Size := Size m;
     Score := Score m; MarkerInvalid := v; MatchedAt := MatchedAt m |}.

Definition set_MatchedAt (v : option Time) (m : Marker) : Marker :=
  {| ID := ID m; FileID := FileID m; MarkerType := MarkerType m; MarkerSrc := MarkerSrc m;
     MarkerName := MarkerName m; SubjectUID := SubjectUID m; SubjectSrc := SubjectSrc m;
     SubjectRef := SubjectRef m; FaceID := FaceID m; FaceDist := FaceDist m;
     FaceRef := FaceRef m; EmbeddingsJSON := EmbeddingsJSON m; embeddings := embeddings m;
     LandmarksJSON := LandmarksJSON m; X := X m; Y := Y m; W := W m; H := H m; Size := Size m;
     Score := Score m; MarkerInvalid := MarkerInvalid m; MatchedAt := v |}.


(** ** Storage state

    Modelled from the spec: the storage collaborator, which is reached through
    the ORM and is not in [marker.go].  It keeps one table per entity and
    supports get-by-predicate, insert, partial-column update and bulk
    conditional update, each call reporting its own error and writing nothing
    when it fails.  [markers] is kept in primary-key order.  [faults] decides
    the outcome of the coming storage calls, one entry per call: [Some msg]
    makes the call fail with [StorageError msg]; with no entry left a call
    succeeds.  [clock] is the time [TimePointer] reads. *)
Record Store : Type := {
  markers : list Marker;
  faces : list Face;
  subjects : list Subject;
  clock : Time;
  faults : list (option string)
}.

Definition set_markers (v : list Marker) (s : Store) : Store :=
  {| markers := v; faces := faces s; subjects := subjects s; clock := clock s;
     faults := faults s |}.

Definition set_faces (v : list Face) (s : Store) : Store :=
  {| markers := markers s; faces := v; subjects := subjects s; clock := clock s;
     faults := faults s |}.

Definition set_subjects (v : list Subject) (s : Store) : Store :=
  {| markers := markers s; faces := faces s; subjects := v; clock := clock s;
     faults := faults s |}.

Definition set_faults (v : list (option string)) (s : Store) : Store :=
  {| markers := markers s; faces := faces s; subjects := subjects s; clock := clock s;
     faults := v |}.

(** Calls to the face's collision reporter, in the order they were made. *)
Inductive Call : Type :=
| CallReportCollision (f : Face) (e : Embeddings).

(** The state the operations run in: the storage and the record of the
    collaborator calls made so far. *)
Record World : Type := {
  store : Store;
  calls : list Call
}.

(** ** The state monad of the operations *)

Definition M (A : Type) : Type := World -> A * World.

Definition ret {A : Type} (a : A) : M A := fun w => (a, w).

Definition bind {A B : Type} (c : M A) (k : A -> M B) : M B :=
  fun w => let (a, w') := c w in k a w'.

Notation "x <- c ;; k" := (bind c (fun x => k))
  (at level 61, c at next level, right associativity).
Notation "' p <- c ;; k" := (bind c (fun x => let 'p := x in k))
  (at level 61, p pattern, c at next level, right associativity).

(** A storage or collaborator action run inside [M]. *)
Definition lift {A : Type} (c : Store -> A * Store) : M A :=
  fun w => let (a, s) := c (store w) in (a, {| store := s; calls := calls w |}).

(** [TimePointer()]: the current time, as a pointer. *)
Definition TimePointer : M (option Time) :=
  fun w => (Some (clock (store w)), w).

(** ** Collaborators

    What [marker.go] uses of the rest of the repository and of its libraries:
    the provenance tags and their priorities ([entity/src.go]), the clustering
    thresholds ([internal/face]), text helpers ([strings], [pkg/txt]), the
    JSON decoder applied to the embeddings blob, the distance between two
    embeddings ([pkg/clusters]), the subject store and the face entity's
    methods.  A collaborator that touches storage transforms the [Store]. *)
Class Collaborators : Type := {
  SrcAuto : string;
  SrcManual : string;
  SrcImage : string;
  SrcMarker : string;
  SrcDefault : string;
  SrcPriority : string -> Z;
  ClusterMinSize : Z;
  ClusterMinScore : Z;
  TrimSpace : string -> string;
  Title : string -> string;
  Clip : string -> Z -> string;
  ClipDefault : Z;
  (** [json.Unmarshal(data, &slot)]: the slot's content afterwards, and the error. *)
  json_Unmarshal : RawMessage -> Embeddings -> Embeddings * option error;
  EuclideanDistance : Embedding -> Embedding -> float64;
  SubjectPerson : string;
  NewSubject : string -> string -> string -> option Subject;
  FirstOrCreateSubject : Subject -> Store -> option Subject * Store;
  FindSubject : string -> Store -> option Subject * Store;
  (** [subj.UpdateName(name)]: the subject object afterwards, and the error. *)
  UpdateName : Subject -> string -> Store -> (Subject * option error) * Store;
  FindFace : string -> Store -> option Face * Store;
  NewFace : string -> string -> Embeddings -> option Face;
  (** [f.Create()] and [f.MatchMarkers(Faceless)]: the face object afterwards,
      and the error. *)
  Face_Create : Face -> Store -> (Face * option error) * Store;
  Face_MatchMarkers : Face -> Store -> (Face * option error) * Store;
  (** [f.ReportCollision(embeddings)]. *)
  ReportCollision : Face -> Embeddings -> Store -> (bool * option error) * Store
}.

(** ** Storage calls *)

(** The next entry of the fault queue. *)
Definition db_fault (s : Store) : option error * Store :=
  match faults s with
  | [] => (None, s)
  | None :: rest => (None, set_faults rest s)
  | Some msg :: rest => (Some (StorageError msg), set_faults rest s)
  end.

(** The columns a partial update of a marker can write, with their values:
    an entry of Go's [Values] map. *)
Inductive Column : Type :=
| Col_MarkerName (v : string)
| Col_SubjectUID (v : string)
| Col_SubjectSrc (v : string)
| Col_FaceID (v : string)
| Col_FaceDist (v : float64)
| Col_MatchedAt (v : option Time)
| Col_X (v : float32)
| Col_Y (v : float32)
| Col_W (v : float32)
| Col_H (v : float32)
| Col_Score (v : Z)
| Col_LandmarksJSON (v : RawMessage)
| Col_EmbeddingsJSON (v : RawMessage).

Definition Values := list Column.

Definition assign (m : Marker) (c : Column) : Marker :=
  match c with
  | Col_MarkerName v => set_MarkerName v m
  | Col_SubjectUID v => set_SubjectUID v m
  | Col_SubjectSrc v => set_SubjectSrc v m
  | Col_FaceID v => set_FaceID v m
  | Col_FaceDist v => set_FaceDist v m
  | Col_MatchedAt v => set_MatchedAt v m
  | Col_X v => set_X v m
  | Col_Y v => set_Y v m
  | Col_W v => set_W v m
  | Col_H v => set_H v m
  | Col_Score v => set_Score v m
  | Col_LandmarksJSON v => set_LandmarksJSON v m
  | Col_EmbeddingsJSON v => set_EmbeddingsJSON v m
  end.

Definition assign_all (vs : Values) (m : Marker) : Marker := fold_left assign vs m.

(** What of a marker object is a row: the pointer fields and the parsed
    embeddings are not columns. *)
Definition row_of (m : Marker) : Marker :=
  set_embeddings [] (set_FaceRef None (set_SubjectRef None m)).

Definition next_id (rows : list Marker) : N :=
  N.succ (fold_right N.max 0%N (map ID rows)).

Definition has_id (i : N) (rows : list Marker) : bool :=
  existsb (fun r => (ID r =? i)%N) rows.

Fixpoint insert_row (r : Marker) (rows : list Marker) : list Marker :=
  match rows with
  | [] => [r]
  | x :: rest => if (ID r <? ID x)%N then r :: rows else x :: insert_row r rest
  end.

Definition replace_row (r : Marker) (rows : list Marker) : list Marker :=
  map (fun x => if (ID x =? ID r)%N then r else x) rows.

(** Bulk conditional update of the marker table. *)
Definition update_rows (cond : Marker -> bool) (vs : Values) (rows : list Marker)
  : list Marker :=
  map (fun r => if cond r then assign_all vs r else r) rows.

(** [Db().Create(m)]: insert; a marker without id is given the next one. *)
Definition db_Create (m : Marker) (s : Store) : (Marker * option error) * Store :=
  match db_fault s with
  | (Some e, s1) => ((m, Some e), s1)
  | (None, s1) =>
    let m1 := if (ID m =? 0)%N then set_ID (next_id (markers s1)) m else m in
    if has_id (ID m1) (markers s1)
    then ((m, Some (StorageError "duplicate entry")), s1)
    else ((m1, None), set_markers (insert_row (row_of m1) (markers s1)) s1)
  end.

(** [Db().Save(m)]: update the row of the marker's id, insert when there is none. *)
Definition db_Save (m : Marker) (s : Store) : (Marker * option error) * Store :=
  match db_fault s with
  | (Some e, s1) => ((m, Some e), s1)
  | (None, s1) =>
    if (ID m =? 0)%N then
      let m1 := set_ID (next_id (markers s1)) m in
      ((m1, None), set_markers (insert_row (row_of m1) (markers s1)) s1)
    else if has_id (ID m) (markers s1)
    then ((m, None), set_markers (replace_row (row_of m) (markers s1)) s1)
    else ((m, None), set_markers (insert_row (row_of m) (markers s1)) s1)
  end.

(** [Db().Model(m).Updates(values)]: the ORM first assigns the values to the
    object, then writes the columns of the row with the object's id. *)
Definition db_Updates (m : Marker) (vs : Values) (s : Store)
  : (Marker * option error) * Store :=
  let m' := assign_all vs m in
  match db_fault s with
  | (Some e, s1) => ((m', Some e), s1)
  | (None, s1) =>
    ((m', None), set_markers (update_rows (fun r => (ID r =? ID m)%N) vs (markers s1)) s1)
  end.

(** [Db().Model(&Marker{}).Where(cond).Updates(values)]. *)
Definition db_update_markers (cond : Marker -> bool) (vs : Values) (s : Store)
  : option error * Store :=
  match db_fault s with
  | (Some e, s1) => (Some e, s1)
  | (None, s1) => (None, set_markers (update_rows cond vs (markers s1)) s1)
  end.

(** [Db().Model(&Face{}).Where(cond).Update("SubjectUID", v)]. *)
Definition db_update_faces (cond : Face -> bool) (v : string) (s : Store)
  : option error * Store :=
  match db_fault s with
  | (Some e, s1) => (Some e, s1)
  | (None, s1) =>
    (None, set_faces (map (fun f => if cond f then set_face_SubjectUID v f else f)
                          (faces s1)) s1)
  end.

(** [Db().Where(cond).First(&result)]: the first matching row in primary-key
    order; [None] stands for every error, a failed call included, since the
    callers only test [err == nil]. *)
Definition db_First (cond : Marker -> bool) (s : Store) : option Marker * Store :=
  match db_fault s with
  | (Some _, s1) => (None, s1)
  | (None, s1) => (find cond (markers s1), s1)
  end.

(** Modelled from the spec: [f.Update("SubjectUID", v)] of the face entity,
    which is not in [marker.go]: a single-column update like the marker's
    [Update], assigning the object and writing the row of the face's id. *)
Definition Face_Update_SubjectUID (f : Face) (v : string) (s : Store)
  : (Face * option error) * Store :=
  let f' := set_face_SubjectUID v f in
  match db_update_faces (fun x => face_ID x =? face_ID f) v s with
  | (err, s1) => ((f', err), s1)
  end.

(** ** The operations of [marker.go] *)

Section Operations.

Context {C : Collaborators}.

(** [f.ReportCollision(embeddings)], recorded in [calls]. *)
Definition call_ReportCollision (f : Face) (e : Embeddings) : M (bool * option error) :=
  fun w =>
    let (r, s) := ReportCollision f e (store w) in
    (r, {| store := s; calls := calls w ++ [CallReportCollision f e] |}).

(** Modelled from the spec: what the detector supplies per detection
    ([face.Face], not in [marker.go]): the normalized region returned by
    [Marker()], the serialized embeddings and landmarks, a pixel size and a
    quality score. *)
Record Detection : Type := {
  det_X : float32;
  det_Y : float32;
  det_W : float32;
  det_H : float32;
  det_EmbeddingsJSON : RawMessage;
  det_RelativeLandmarksJSON : RawMessage;
  det_Size : Z;
  det_Score : Z
}.

(** Modelled from the spec: the fields of [form.Marker] that [SaveForm] reads. *)
Record FormMarker : Type := {
  form_MarkerInvalid : bool;
  form_SubjectSrc : string;
  form_MarkerName : string
}.

(** [NewMarker]: every field not listed has Go's zero value. *)
Definition NewMarker (fileID : N) (subjectUID markerSrc markerType : string)
  (x y w h : float32) : Marker :=
  {| ID := 0%N; FileID := fileID; MarkerType := markerType; MarkerSrc := markerSrc;
     MarkerName := ""; SubjectUID := subjectUID; SubjectSrc := ""; SubjectRef := None;
     FaceID := ""; FaceDist := F64.zero; FaceRef := None; EmbeddingsJSON := [];
     embeddings := []; LandmarksJSON := []; X := x; Y := y; W := w; H := h; Size := 0;
     Score := 0; MarkerInvalid := false; MatchedAt := None |}.

(** [UnknownMarker]. *)
Definition UnknownMarker : Marker :=
  NewMarker 0 "" SrcDefault MarkerUnknown F32.zero F32.zero F32.zero F32.zero.

(** [NewFaceMarker]. *)
Definition NewFaceMarker (f : Detection) (fileID : N) (refUID : string) : Marker :=
  let m := NewMarker fileID refUID SrcImage MarkerFace (det_X f) (det_Y f) (det_W f) (det_H f) in
  let m := set_MatchedAt None m in
  let m := set_FaceDist F64.minus_one m in
  let m := set_EmbeddingsJSON (det_EmbeddingsJSON f) m in
  let m := set_LandmarksJSON (det_RelativeLandmarksJSON f) m in
  let m := set_Size (det_Size f) m in
  set_Score (det_Score f) m.

(** [m.Updates(values)]. *)
Definition Updates (m : Marker) (vs : Values) : M (Marker * option error) :=
  lift (db_Updates m vs).

(** [m.Update(attr, value)]. *)
Definition Update (m : Marker) (c : Column) : M (Marker * option error) :=
  lift (db_Updates m [c]).

(** [m.Embeddings()]: the parsed embeddings, parsed on first use and kept in
    the object. *)
Definition Marker_Embeddings (m : Marker) : Embeddings * Marker :=
  if (List.length (EmbeddingsJSON m) =? 0)%nat then ([], m)
  else if (0 <? List.length (embeddings m))%nat then (embeddings m, m)
  else
    let (e, _) := json_Unmarshal (EmbeddingsJSON m) (embeddings m) in
    (e, set_embeddings e m).

(** [m.HasFace(f, dist)]. *)
Definition HasFace (m : Marker) (f : option Face) (dist : float64) : bool :=
  if FaceID m =? "" then false
  else match f with
       | None => negb (FaceID m =? "")
       | Some f =>
         if FaceID m =? face_ID f then negb (FaceID m =? "")
         else if SFltb (FaceDist m) F64.zero then false
         else if SFltb dist F64.zero then true
         else SFleb (FaceDist m) dist
       end.

(** The position test of [Save] and [Create]:
    [m.X == 0 || m.Y == 0 || m.X > 1 || m.Y > 1 || m.X < -1 || m.Y < -1]. *)
Definition invalid_position (m : Marker) : bool :=
  SFeqb (X m) F32.zero || SFeqb (Y m) F32.zero
  || SFltb F32.one (X m) || SFltb F32.one (Y m)
  || SFltb (X m) F32.minus_one || SFltb (Y m) F32.minus_one.

Definition err_invalid_position : error := Errorf "marker: invalid position".

(** [m.Save()]. *)
Definition Save (m : Marker) : M (Marker * option error) :=
  if invalid_position m then ret (m, Some err_invalid_position)
  else lift (db_Save m).

(** [m.Create()]. *)
Definition Create (m : Marker) : M (Marker * option error) :=
  if invalid_position m then ret (m, Some err_invalid_position)
  else lift (db_Create m).

(** [m.Matched()]. *)
Definition Matched (m : Marker) : M (Marker * option error) :=
  t <- TimePointer ;;
  let m := set_MatchedAt t m in
  lift (db_Updates m [Col_MatchedAt (MatchedAt m)]).

(** [m.GetSubject()]. *)
Definition GetSubject (m : Marker) : M (option Subject * Marker) :=
  match SubjectRef m with
  | Some subj => ret (Some subj, m)
  | None =>
    if (SubjectUID m =? "") && negb (MarkerName m =? "") then
      match NewSubject (MarkerName m) SubjectPerson SrcMarker with
      | None => ret (None, m)
      | Some subj =>
        r <- lift (FirstOrCreateSubject subj) ;;
        match r with
        | None => ret (None, m)
        | Some subj =>
          let m := set_SubjectUID (subj_SubjectUID subj) m in
          let m := set_SubjectSrc SrcManual m in
          ret (Some subj, m)
        end
      end
    else
      r <- lift (FindSubject (SubjectUID m)) ;;
      ret (r, set_SubjectRef r m)
  end.

(** [m.GetFace()]. *)
Definition GetFace (m : Marker) : M (option Face * Marker) :=
  match FaceRef m with
  | Some f => ret (Some f, m)
  | None =>
    if (FaceID m =? "") && (SubjectSrc m =? SrcManual) then
      if (Size m <? ClusterMinSize)%Z || (Score m <? ClusterMinScore)%Z then ret (None, m)
      else
        let (emb, m) := Marker_Embeddings m in
        match NewFace (SubjectUID m) SrcManual emb with
        | None => ret (None, m)
        | Some f =>
          '(f, err) <- lift (Face_Create f) ;;
          match err with
          | Some _ => ret (None, m)
          | None =>
            '(f, _) <- lift (Face_MatchMarkers f) ;;
            let m := set_FaceRef (Some f) m in
            let m := set_FaceID (face_ID f) m in
            ret (Some f, m)
          end
        end
    else
      r <- lift (FindFace (FaceID m)) ;;
      ret (r, set_FaceRef r m)
  end.

(** [subj] is the object [m.Subject] points to whenever that pointer is set:
    a change [UpdateName] makes to it shows through the marker. *)
Definition alias_subject (subj : Subject) (m : Marker) : Marker :=
  match SubjectRef m with
  | Some _ => set_SubjectRef (Some subj) m
  | None => m
  end.

(** The rows the last step of [SyncSubject] rewrites: every other marker of
    the same face whose subject was set automatically and differs. *)
Definition related (m r : Marker) : bool :=
  negb (ID r =? ID m)%N && (FaceID r =? FaceID m) && (SubjectSrc r =? SrcAuto)
  && negb (SubjectUID r =? SubjectUID m).

(** The face rows the known-face step of [SyncSubject] rewrites:
    [id = ? AND subject_uid = ''] for the marker's face id. *)
Definition known_face (m : Marker) (f : Face) : bool :=
  (face_ID f =? FaceID m) && (face_SubjectUID f =? "").

(** [SyncSubject], "Update subject with marker name?". *)
Definition SyncSubject_name (subj : Subject) (m : Marker) : M (Marker * option error) :=
  if (MarkerName m =? "") || (subj_SubjectName subj =? MarkerName m)
     || (negb (subj_SubjectName subj =? "") && negb (SubjectSrc m =? SrcManual))
  then ret (m, None)
  else
    '(subj, err) <- lift (UpdateName subj (MarkerName m)) ;;
    ret (alias_subject subj m, err).

(** [SyncSubject], "Create known face for subject?". *)
Definition SyncSubject_face (m : Marker) : M Marker :=
  if negb (FaceID m =? "") || negb (SubjectSrc m =? SrcManual) then ret m
  else
    '(f, m) <- GetFace m ;;
    match f with
    | Some f => ret (set_FaceID (face_ID f) m)
    | None => ret m
    end.

(** [SyncSubject], "Update related markers?". *)
Definition SyncSubject_related (m : Marker) (updateRelated : bool)
  : M (Marker * option error) :=
  if (FaceID m =? "") || (SubjectUID m =? "") then ret (m, None)
  else
    err <- lift (db_update_faces (known_face m) (SubjectUID m)) ;;
    match err with
    | Some e => ret (m, Some (Errorf (error_string e ++ " (update known face)")))
    | None =>
      if negb updateRelated then ret (m, None)
      else
        err <- lift (db_update_markers (related m)
                       [Col_SubjectUID (SubjectUID m); Col_SubjectSrc SrcAuto]) ;;
        match err with
        | Some e => ret (m, Some (Errorf (error_string e ++ " (update related markers)")))
        | None => ret (m, None)
        end
    end.

(** [m.SyncSubject(updateRelated)]. *)
Definition SyncSubject (m : Marker) (updateRelated : bool) : M (Marker * option error) :=
  if negb (MarkerType m =? MarkerFace) then ret (m, None)
  else
    '(subj, m) <- GetSubject m ;;
    match subj with
    | None => ret (m, None)
    | Some subj =>
      '(m, err) <- SyncSubject_name subj m ;;
      match err with
      | Some e => ret (m, Some e)
      | None =>
        m <- SyncSubject_face m ;;
        SyncSubject_related m updateRelated
      end
    end.

(** [m.SaveForm(f)]. *)
Definition SaveForm (m : Marker) (f : FormMarker) : M (Marker * option error) :=
  let changed := false in
  let '(m, changed) :=
    if negb (Bool.eqb (MarkerInvalid m) (form_MarkerInvalid f))
    then (set_MarkerInvalid (form_MarkerInvalid f) m, true)
    else (m, changed) in
  let '(m, changed) :=
    if negb (MarkerInvalid m) && (Score m <? 100)%Z
    then (set_Score 100 m, true)
    else (m, changed) in
  if (form_SubjectSrc f =? SrcManual) && negb (TrimSpace (form_MarkerName f) =? "") then
    let m := set_SubjectSrc SrcManual m in
    let m := set_MarkerName (Title (Clip (form_MarkerName f) ClipDefault)) m in
    '(m, err) <- SyncSubject m true ;;
    match err with
    | Some e => ret (m, Some e)
    | None => Save m
    end
  else if changed then Save m
  else ret (m, None).

(** One turn of the loop of [SetFace] that looks for the smallest distance:
    [dist] is [m.FaceDist], [e] the embedding at hand. *)
Definition smallest_distance_step (faceEmbedding : Embedding) (dist : float64)
  (e : Embedding) : float64 :=
  if negb (List.length e =? List.length faceEmbedding)%nat then dist
  else
    let d := EuclideanDistance e faceEmbedding in
    if SFltb d dist || SFltb dist F64.zero then d else dist.

Definition smallest_distance (faceEmbedding : Embedding) (embs : Embeddings)
  (dist : float64) : float64 :=
  fold_left (smallest_distance_step faceEmbedding) embs dist.

Definition SetFaceResult : Type := Marker * option Face * bool * option error.

(** [SetFace] from "Remember current values for comparison" to its end. *)
Definition SetFace_assign (m : Marker) (f : Face) (dist : float64) : M SetFaceResult :=
  let faceID := FaceID m in
  let subjectUID := SubjectUID m in
  let subjectSrc := SubjectSrc m in
  let m := set_FaceID (face_ID f) m in
  let m := set_FaceDist dist m in
  let m :=
    if SFltb (FaceDist m) F64.zero then
      let faceEmbedding := face_Embedding f in
      let (embs, m) := Marker_Embeddings m in
      set_FaceDist (smallest_distance faceEmbedding embs (FaceDist m)) m
    else m in
  let m :=
    if negb (face_SubjectUID f =? "") then set_SubjectUID (face_SubjectUID f) m else m in
  '(m, err) <- SyncSubject m false ;;
  match err with
  | Some e => ret (m, Some f, false, Some e)
  | None =>
    '(f, err) <-
      (if (SubjectUID m =? "") || negb (face_SubjectUID f =? SubjectUID m)
       then ret (f, None)
       else lift (Face_Update_SubjectUID f (SubjectUID m))) ;;
    match err with
    | Some e => ret (m, Some f, false, Some e)
    | None =>
      let updated :=
        negb (FaceID m =? faceID) || negb (SubjectUID m =? subjectUID)
        || negb (SubjectSrc m =? subjectSrc) in
      t <- TimePointer ;;
      let m := set_MatchedAt t m in
      '(m, err) <- Updates m [Col_FaceID (FaceID m); Col_FaceDist (FaceDist m);
                              Col_SubjectUID (SubjectUID m); Col_SubjectSrc (SubjectSrc m);
                              Col_MatchedAt (MatchedAt m)] ;;
      ret (m, Some f, updated, err)
    end
  end.

(** The first test of [SetFace], "Any reason we don't want to set a new face
    for this marker?": none when the subject was not set manually, a subject
    is missing, or the subjects match. *)
Definition no_conflict (m : Marker) (f : Face) : bool :=
  negb (SubjectSrc m =? SrcManual) || (face_SubjectUID f =? "")
  || (SubjectUID m =? "") || (face_SubjectUID f =? SubjectUID m).

(** [SetFace], "Update face with known subject from marker?". *)
Definition SetFace_adopt (m : Marker) (f : Face) : M (Face * option error) :=
  if negb (face_SubjectUID f =? "") || (SubjectUID m =? "") then ret (f, None)
  else lift (Face_Update_SubjectUID f (SubjectUID m)).

(** [SetFace], "Skip update if the same face is already set". *)
Definition same_face (m : Marker) (f : Face) : bool :=
  (SubjectUID m =? face_SubjectUID f) && (FaceID m =? face_ID f).

(** [SetFace] once no conflict stands in the way. *)
Definition SetFace_match (m : Marker) (f : Face) (dist : float64) : M SetFaceResult :=
  '(f, err) <- SetFace_adopt m f ;;
  match err with
  | Some e => ret (m, Some f, false, Some e)
  | None =>
    if same_face m f then
      t <- TimePointer ;;
      let m := set_MatchedAt t m in
      '(m, err) <- Updates m [Col_MatchedAt (MatchedAt m)] ;;
      ret (m, Some f, false, err)
    else SetFace_assign m f dist
  end.

(** [m.SetFace(f, dist)]: the marker and the face afterwards, [updated], [err]. *)
Definition SetFace (m : Marker) (f : option Face) (dist : float64) : M SetFaceResult :=
  match f with
  | None => ret (m, None, false, Some (Errorf "face is nil"))
  | Some f =>
    if negb (MarkerType m =? MarkerFace)
    then ret (m, Some f, false, Some (Errorf "not a face marker"))
    else if no_conflict m f then SetFace_match m f dist
    else
      let (emb, m) := Marker_Embeddings m in
      '(reported, err) <- call_ReportCollision f emb ;;
      match err with
      | Some e => ret (m, Some f, false, Some e)
      | None =>
        if reported then ret (m, Some f, false, None)
        else ret (m, Some f, false, None)
      end
  end.

(** The fields [ClearSubject] resets on the object. *)
Definition clear_subject_fields (src : string) (m : Marker) : Marker :=
  let m := set_FaceRef None m in
  let m := set_MarkerName "" m in
  let m := set_FaceID "" m in
  let m := set_FaceDist F64.minus_one m in
  let m := set_SubjectUID "" m in
  set_SubjectSrc src m.

(** [m.ClearSubject(src)]. *)
Definition ClearSubject (m : Marker) (src : string) : M (Marker * option error) :=
  m <-
    (match FaceRef m with
     | None => f <- lift (FindFace (FaceID m)) ;; ret (set_FaceRef f m)
     | Some _ => ret m
     end) ;;
  match FaceRef m with
  | None => ret (clear_subject_fields src m, None)
  | Some f =>
    let (emb, m) := Marker_Embeddings m in
    '(reported, err) <- call_ReportCollision f emb ;;
    match err with
    | Some e => ret (m, Some e)
    | None =>
      '(m, err) <- Updates m [Col_MarkerName ""; Col_FaceID "";
                              Col_FaceDist F64.minus_one; Col_SubjectUID "";
                              Col_SubjectSrc src] ;;
      match err with
      | Some e => ret (m, Some e)
      | None => ret (clear_subject_fields src m, None)
      end
    end
  end.

(** [m.ClearFace()]: the marker afterwards, [updated], [err]. *)
Definition ClearFace (m : Marker) : M (Marker * bool * option error) :=
  if FaceID m =? "" then
    '(m, err) <- Matched m ;;
    ret (m, false, err)
  else
    let updated := true in
    let m := set_FaceRef None m in
    let m := set_FaceID "" m in
    t <- TimePointer ;;
    let m := set_MatchedAt t m in
    if SubjectSrc m =? SrcAuto then
      let m := set_SubjectUID "" m in
      '(m, err) <- Updates m [Col_FaceID ""; Col_FaceDist F64.minus_one;
                              Col_SubjectUID ""; Col_MatchedAt (MatchedAt m)] ;;
      ret (m, updated, err)
    else
      '(m, err) <- Updates m [Col_FaceID ""; Col_FaceDist F64.minus_one;
                              Col_MatchedAt (MatchedAt m)] ;;
      ret (m, updated, err).


(** The tolerance [d = 0.07] of [UpdateOrCreateMarker], as the [float32] it
    is converted to in [m.X-d]. *)
Definition dedup_tolerance : float32 := Eval cbv in F32.div (F32.ofZ 7) (F32.ofZ 100).

(** The query of [UpdateOrCreateMarker]:
    [file_id = ? AND x > ? AND x < ? AND y > ? AND y < ?] with the arguments
    [m.FileID, m.X-d, m.X+d, m.Y-d, m.Y+d]. *)
Definition near_duplicate (m r : Marker) : bool :=
  (FileID r =? FileID m)%N
  && SFltb (F32.sub (X m) dedup_tolerance) (X r)
  && SFltb (X r) (F32.add (X m) dedup_tolerance)
  && SFltb (F32.sub (Y m) dedup_tolerance) (Y r)
  && SFltb (Y r) (F32.add (Y m) dedup_tolerance).

(** The columns [UpdateOrCreateMarker] copies from the candidate. *)
Definition candidate_values (m : Marker) : Values :=
  [Col_X (X m); Col_Y (Y m); Col_W (W m); Col_H (H m); Col_Score (Score m);
   Col_LandmarksJSON (LandmarksJSON m); Col_EmbeddingsJSON (EmbeddingsJSON m);
   Col_SubjectUID (SubjectUID m)].

(** [UpdateOrCreateMarker(m)]. *)
Definition UpdateOrCreateMarker (m : Marker) : M (Marker * option error) :=
  if (0 <? ID m)%N then Save m
  else
    r <- lift (db_First (near_duplicate m)) ;;
    match r with
    | Some result =>
      if (SrcPriority (MarkerSrc m) <? SrcPriority (MarkerSrc result))%Z
      then ret (result, None)
      else Updates result (candidate_values m)
    | None =>
      '(m, err) <- Create m ;;
      match err with
      | Some e => ret (m, Some e)
      | None => ret (m, None)
      end
    end.

End Operations.

(** ** Order of the floating-point values

    [SFcompare] orders the values that are not NaN by sign, then exponent,
    then mantissa; [sf_key] is that position as a triple of integers. *)

Definition is_nan (x : spec_float) : bool :=
  match x with
  | S754_nan => true
  | _ => false
  end.

Definition sf_key (x : spec_float) : Z * Z * Z :=
  match x with
  | S754_nan => (0, 0, 0)
  | S754_zero _ => (0, 0, 0)
  | S754_infinity true => (-2, 0, 0)
  | S754_infinity false => (2, 0, 0)
  | S754_finite true m e => (-1, - e, Z.neg m)
  | S754_finite false m e => (1, e, Z.pos m)
  end.

Definition key_lt (a b : Z * Z * Z) : Prop :=
  let '(a1, a2, a3) := a in
  let '(b1, b2, b3) := b in
  a1 < b1 \/ (a1 = b1 /\ (a2 < b2 \/ (a2 = b2 /\ a3 < b3))).

Definition key_le (a b : Z * Z * Z) : Prop :=
  let '(a1, a2, a3) := a in
  let '(b1, b2, b3) := b in
  a1 < b1 \/ (a1 = b1 /\ (a2 < b2 \/ (a2 = b2 /\ a3 <= b3))).

(** ** Statements of the specification *)

Section Statements.

Context {C : Collaborators}.

(** The distances the specification takes the minimum of: from the face's
    reference embedding to every marker embedding of the same length. *)
Definition matching_distances (faceEmbedding : Embedding) (embs : Embeddings)
  : list float64 :=
  map (fun e => EuclideanDistance e faceEmbedding)
      (filter (fun e => (List.length e =? List.length faceEmbedding)%nat) embs).

(** The marker object [SetFace] leaves. *)
Definition result_marker (r : SetFaceResult * World) : Marker :=
  fst (fst (fst (fst r))).

(** [r] is the minimum of [ds]. *)
Definition is_minimum (r : float64) (ds : list float64) : Prop :=
  In r ds /\ forall d, In d ds -> SFleb r d = true.

(** What a partial update of the marker [m] with [vs] leaves of the store
    [s] in [s']: the columns written in the rows of the marker's id when the
    call succeeded, nothing written when it failed. *)
Definition written (m : Marker) (vs : Values) (s s' : Store) (err : option error)
  : Prop :=
  faces s' = faces s /\ subjects s' = subjects s /\ clock s' = clock s /\
  match err with
  | None => markers s' = update_rows (fun r => (ID r =? ID m)%N) vs (markers s)
  | Some _ => markers s' = markers s
  end.

(** The existing marker after a candidate's geometry, score, landmarks,
    embeddings and subject link were written over its own. *)
Definition overwrite (m existing : Marker) : Marker :=
  {| ID := ID existing; FileID := FileID existing; MarkerType := MarkerType existing;
     MarkerSrc := MarkerSrc existing; MarkerName := MarkerName existing;
     SubjectUID := SubjectUID m; SubjectSrc := SubjectSrc existing;
     SubjectRef := SubjectRef existing; FaceID := FaceID existing;
     FaceDist := FaceDist existing; FaceRef := FaceRef existing;
     EmbeddingsJSON := EmbeddingsJSON m; embeddings := embeddings existing;
     LandmarksJSON := LandmarksJSON m; X := X m; Y := Y m; W := W m; H := H m;
     Size := Size existing; Score := Score m; MarkerInvalid := MarkerInvalid existing;
     MatchedAt := MatchedAt existing |}.

(** [r'] has the provenance tags, type, name, face link, size and validity
    flag of [r]. *)
Definition keeps_tags (r r' : Marker) : Prop :=
  MarkerSrc r' = MarkerSrc r /\ SubjectSrc r' = SubjectSrc r /\
  MarkerType r' = MarkerType r /\ MarkerName r' = MarkerName r /\
  FaceID r' = FaceID r /\ FaceDist r' = FaceDist r /\ Size r' = Size r /\
  MarkerInvalid r' = MarkerInvalid r.

(** The fields of a marker that subject synchronization has no part in. *)
Definition outside_sync (m : Marker) :=
  (ID m, FileID m, MarkerType m, MarkerSrc m, MarkerName m, FaceDist m,
   EmbeddingsJSON m, LandmarksJSON m, (X m, Y m, W m, H m), Size m, Score m,
   MarkerInvalid m, MatchedAt m).

(** The score invariant of the specification. *)
Definition score_invariant (m : Marker) : Prop :=
  MarkerInvalid m = false -> 100 <= Score m.

End Statements.

(** ** A reference instance of the collaborators

    Sample tags, thresholds and in-store implementations of the functions
    [marker.go] calls, to run the operations on concrete inputs. *)
Module Reference.

Fixpoint drop_spaces (l : list Ascii.ascii) : list Ascii.ascii :=
  match l with
  | c :: rest => if Ascii.eqb c " "%char then drop_spaces rest else l
  | [] => []
  end.

Definition trim (s : string) : string :=
  string_of_list_ascii
    (rev (drop_spaces (rev (drop_spaces (list_ascii_of_string s))))).

Definition priority (src : string) : Z :=
  if src =? "manual" then 64
  else if src =? "image" then 8
  else if src =? "marker" then 8
  else if src =? "" then 1
  else 0.

(** Decodes the empty array only; any other payload is a syntax error and
    leaves the slot as it was. *)
Definition unmarshal (data : RawMessage) (slot : Embeddings)
  : Embeddings * option error :=
  match data with
  | [Byte.x5b; Byte.x5d] => ([], None)
  | _ => (slot, Some (CollaboratorError "invalid character"))
  end.

Fixpoint sum_squares (a b : Embedding) (s : float64) : float64 :=
  match a, b with
  | x :: a', y :: b' =>
    let t := F64.sub x y in
    sum_squares a' b' (F64.add s (F64.mul t t))
  | _, _ => s
  end.

Definition euclidean (a b : Embedding) : float64 :=
  F64.sqrt (sum_squares a b F64.zero).

Definition new_subject (name kind src : string) : option Subject :=
  if name =? "" then None
  else Some {| subj_SubjectUID := ""; subj_SubjectName := name |}.

Definition first_or_create_subject (subj : Subject) (s : Store)
  : option Subject * Store :=
  match find (fun x => subj_SubjectName x =? subj_SubjectName subj) (subjects s) with
  | Some x => (Some x, s)
  | None =>
    let x := {| subj_SubjectUID := "subject:" ++ subj_SubjectName subj;
                subj_SubjectName := subj_SubjectName subj |} in
    (Some x, set_subjects (subjects s ++ [x]) s)
  end.

Definition find_subject (uid : string) (s : Store) : option Subject * Store :=
  if uid =? "" then (None, s)
  else (find (fun x => subj_SubjectUID x =? uid) (subjects s), s).

Definition update_name (subj : Subject) (name : string) (s : Store)
  : (Subject * option error) * Store :=
  if name =? "" then ((subj, Some (CollaboratorError "subject: name must not be empty")), s)
  else
    let subj' := {| subj_SubjectUID := subj_SubjectUID subj; subj_SubjectName := name |} in
    ((subj', None),
     set_subjects
       (map (fun x => if subj_SubjectUID x =? subj_SubjectUID subj then subj' else x)
            (subjects s)) s).

Definition find_face (id : string) (s : Store) : option Face * Store :=
  if id =? "" then (None, s)
  else (find (fun f => face_ID f =? id) (faces s), s).

Definition new_face (subjectUID src : string) (embs : Embeddings) : option Face :=
  match embs with
  | [] => None
  | e :: _ =>
    Some {| face_ID := "face:" ++ subjectUID; face_SubjectUID := subjectUID;
            face_Embedding := e; face_Collisions := 0 |}
  end.

Definition face_create (f : Face) (s : Store) : (Face * option error) * Store :=
  if existsb (fun x => face_ID x =? face_ID f) (faces s)
  then ((f, Some (CollaboratorError "face exists")), s)
  else ((f, None), set_faces (faces s ++ [f]) s).

(** Matches no marker. *)
Definition face_match_markers (f : Face) (s : Store) : (Face * option error) * Store :=
  ((f, None), s).

(** A face without id cannot report; a face without subject has nothing to
    collide with; otherwise the collision is counted on the face's row. *)
Definition report_collision (f : Face) (embs : Embeddings) (s : Store)
  : (bool * option error) * Store :=
  if face_ID f =? "" then ((false, Some (CollaboratorError "invalid face id")), s)
  else if face_SubjectUID f =? "" then ((false, None), s)
  else
    ((true, None),
     set_faces
       (map (fun x =>
               if face_ID x =? face_ID f
               then {| face_ID := face_ID x; face_SubjectUID := face_SubjectUID x;
                       face_Embedding := face_Embedding x;
                       face_Collisions := face_Collisions x + 1 |}
               else x)
            (faces s)) s).

#[export] Instance collaborators : Collaborators := {|
  SrcAuto := "";
  SrcManual := "manual";
  SrcImage := "image";
  SrcMarker := "marker";
  SrcDefault := "default";
  SrcPriority := priority;
  ClusterMinSize := 80;
  ClusterMinScore := 15;
  TrimSpace := trim;
  Title := fun s => s;
  Clip := fun s n => substring 0 (Z.to_nat n) s;
  ClipDefault := 160;
  json_Unmarshal := unmarshal;
  EuclideanDistance := euclidean;
  SubjectPerson := "person";
  NewSubject := new_subject;
  FirstOrCreateSubject := first_or_create_subject;
  FindSubject := find_subject;
  UpdateName := update_name;
  FindFace := find_face;
  NewFace := new_face;
  Face_Create := face_create;
  Face_MatchMarkers := face_match_markers;
  ReportCollision := report_collision
|}.

(** *** Sample data *)

Definition half32 : float32 := Eval cbv in F32.div (F32.ofZ 1) (F32.ofZ 2).
Definition quarter32 : float32 := Eval cbv in F32.div (F32.ofZ 1) (F32.ofZ 4).
Definition thirty_second32 : float32 := Eval cbv in F32.div (F32.ofZ 1) (F32.ofZ 32).
Definition half64 : float64 := Eval cbv in F64.div (F64.ofZ 1) (F64.ofZ 2).

(** A face marker of file 7 at the position (1/2, 1/4), not yet stored. *)
Definition marker0 : Marker :=
  {| ID := 0%N; FileID := 7%N; MarkerType := MarkerFace; MarkerSrc := "image";
     MarkerName := ""; SubjectUID := ""; SubjectSrc := ""; SubjectRef := None;
     FaceID := ""; FaceDist := F64.minus_one; FaceRef := None;
     EmbeddingsJSON := [Byte.x5b; Byte.x5d]; embeddings := []; LandmarksJSON := [];
     X := half32; Y := quarter32; W := quarter32; H := quarter32; Size := 120;
     Score := 10; MarkerInvalid := false; MatchedAt := None |}.

Definition face1 : Face :=
  {| face_ID := "F1"; face_SubjectUID := ""; face_Embedding := [F64.zero; F64.zero];
     face_Collisions := 0 |}.

Definition alice : Subject := {| subj_SubjectUID := "S-alice"; subj_SubjectName := "Alice" |}.
Definition bob : Subject := {| subj_SubjectUID := "S-bob"; subj_SubjectName := "Bob" |}.

Definition three64 : float64 := Eval cbv in F64.ofZ 3.
Definition four64 : float64 := Eval cbv in F64.ofZ 4.
Definition five64 : float64 := Eval cbv in F64.ofZ 5.

(** The bytes of [[3,4]] between two more brackets, and what they decode to. *)
Definition embeddings_json : RawMessage :=
  [Byte.x5b; Byte.x5b; Byte.x33; Byte.x2c; Byte.x34; Byte.x5d; Byte.x5d].
Definition embeddings_parsed : Embeddings := [[three64; four64]].

(** Marker 1: a face marker named and bound to Alice by hand, matched to the
    face F1 at the distance 1/2, its embeddings already parsed. *)
Definition marker_alice : Marker :=
  {| ID := 1%N; FileID := 7%N; MarkerType := MarkerFace; MarkerSrc := "image";
     MarkerName := ""; SubjectUID := "S-alice"; SubjectSrc := "manual";
     SubjectRef := Some alice; FaceID := "F1"; FaceDist := half64; FaceRef := None;
     EmbeddingsJSON := embeddings_json; embeddings := embeddings_parsed;
     LandmarksJSON := []; X := half32; Y := quarter32; W := quarter32; H := quarter32;
     Size := 120; Score := 40; MarkerInvalid := false; MatchedAt := None |}.

(** Marker 2: a marker of the same face whose subject was set automatically. *)
Definition marker_auto : Marker :=
  {| ID := 2%N; FileID := 8%N; MarkerType := MarkerFace; MarkerSrc := "image";
     MarkerName := ""; SubjectUID := "S-bob"; SubjectSrc := ""; SubjectRef := None;
     FaceID := "F1"; FaceDist := half64; FaceRef := None; EmbeddingsJSON := [];
     embeddings := []; LandmarksJSON := []; X := quarter32; Y := quarter32;
     W := quarter32; H := quarter32; Size := 100; Score := 30; MarkerInvalid := false;
     MatchedAt := None |}.

(** Marker 3: a marker of the same face whose subject was set by hand. *)
Definition marker_manual : Marker :=
  {| ID := 3%N; FileID := 9%N; MarkerType := MarkerFace; MarkerSrc := "manual";
     MarkerName := ""; SubjectUID := "S-bob"; SubjectSrc := "manual"; SubjectRef := None;
     FaceID := "F1"; FaceDist := half64; FaceRef := None; EmbeddingsJSON := [];
     embeddings := []; LandmarksJSON := []; X := quarter32; Y := half32;
     W := quarter32; H := quarter32; Size := 100; Score := 30; MarkerInvalid := false;
     MatchedAt := None |}.

(** The face F1 bound to Alice, and the face F2 bound to Bob. *)
Definition face_alice : Face :=
  {| face_ID := "F1"; face_SubjectUID := "S-alice";
     face_Embedding := [F64.zero; F64.zero]; face_Collisions := 0 |}.
Definition face_bob : Face :=
  {| face_ID := "F2"; face_SubjectUID := "S-bob";
     face_Embedding := [F64.zero; F64.zero]; face_Collisions := 0 |}.

(** A store with the three markers, the face F1 still without subject, and F2. *)
Definition store1 : Store :=
  {| markers := [row_of marker_alice; marker_auto; marker_manual];
     faces := [face1; face_bob]; subjects := [alice; bob]; clock := 1000;
     faults := [] |}.

(** Marker 4: bound to Bob by hand; its face F9 is not in the face table. *)
Definition marker_orphan : Marker :=
  {| ID := 4%N; FileID := 9%N; MarkerType := MarkerFace; MarkerSrc := "image";
     MarkerName := "Bob"; SubjectUID := "S-bob"; SubjectSrc := "manual";
     SubjectRef := None; FaceID := "F9"; FaceDist := half64; FaceRef := None;
     EmbeddingsJSON := []; embeddings := []; LandmarksJSON := []; X := half32;
     Y := half32; W := quarter32; H := quarter32; Size := 100; Score := 30;
     MarkerInvalid := false; MatchedAt := None |}.

(** Marker 1 before it was matched to a face. *)
Definition marker_unmatched : Marker :=
  set_FaceDist F64.minus_one (set_FaceID "" marker_alice).

(** Marker 1 bound to a subject that is not in the subject table. *)
Definition marker_carol : Marker :=
  set_SubjectRef None (set_SubjectUID "S-carol" marker_alice).

(** Marker 1 before it was matched, as a detection of 5 pixels and score 10. *)
Definition marker_small : Marker := set_Score 10 (set_Size 5 marker_unmatched).

Definition store_orphan : Store :=
  {| markers := [marker_orphan]; faces := [face_bob]; subjects := [bob]; clock := 1000;
     faults := [] |}.

(** The candidate [marker0] moved to the left edge, X = 0. *)
Definition marker_edge : Marker := set_X F32.zero marker0.

(** A detection of low quality score at a valid position. *)
Definition detection0 : Detection :=
  {| det_X := half32; det_Y := quarter32; det_W := quarter32; det_H := quarter32;
     det_EmbeddingsJSON := [Byte.x5b; Byte.x5d]; det_RelativeLandmarksJSON := [];
     det_Size := 120; det_Score := 10 |}.

(** Marker 5: a marker of file 7 close to the left edge, at (1/32, 1/4). *)
Definition marker_near_edge : Marker :=
  {| ID := 5%N; FileID := 7%N; MarkerType := MarkerFace; MarkerSrc := "image";
     MarkerName := ""; SubjectUID := ""; SubjectSrc := ""; SubjectRef := None;
     FaceID := ""; FaceDist := F64.minus_one; FaceRef := None; EmbeddingsJSON := [];
     embeddings := []; LandmarksJSON := [];
     X := thirty_second32; Y := quarter32; W := quarter32;
     H := quarter32; Size := 100; Score := 30; MarkerInvalid := false;
     MatchedAt := None |}.

Definition store_edge : Store :=
  {| markers := [marker_near_edge]; faces := []; subjects := []; clock := 1000;
     faults := [] |}.

(** [store1] with a storage that lets one call through and fails the next. *)
Definition store1_failing : Store :=
  set_faults [None; Some "lock wait timeout"] store1.

Definition empty_store : Store :=
  {| markers := []; faces := []; subjects := []; clock := 1000; faults := [] |}.

Definition world_of (s : Store) : World := {| store := s; calls := [] |}.

End Reference.

(** * Properties *)

(** ** The order of the floating-point values *)

Lemma SFltb_key (x y : spec_float) :
  SFltb x y = true <->
  is_nan x = false /\ is_nan y = false /\ key_lt (sf_key x) (sf_key y).
Proof.
  unfold SFltb.
  destruct x as [sx|sx| |sx mx ex], y as [sy|sy| |sy my ey];
    try destruct sx; try destruct sy; cbn;
    try (split; [discriminate | intros (? & ? & ?); try discriminate; lia]);
    try (split; [intros _; repeat split; lia | reflexivity]).
  - change (Pos.compare_cont Eq mx my) with (Pos.compare mx my).
    destruct (Z.compare_spec ex ey); destruct (Pos.compare_spec mx my); cbn;
      (split; [try discriminate; intros _; repeat split; lia
              | intros (_ & _ & ?); try reflexivity; lia]).
  - change (Pos.compare_cont Eq mx my) with (Pos.compare mx my).
    destruct (Z.compare_spec ex ey); destruct (Pos.compare_spec mx my); cbn;
      (split; [try discriminate; intros _; repeat split; lia
              | intros (_ & _ & ?); try reflexivity; lia]).
Qed.

Lemma SFleb_key (x y : spec_float) :
  SFleb x y = true <->
  is_nan x = false /\ is_nan y = false /\ key_le (sf_key x) (sf_key y).
Proof.
  unfold SFleb.
  destruct x as [sx|sx| |sx mx ex], y as [sy|sy| |sy my ey];
    try destruct sx; try destruct sy; cbn;
    try (split; [discriminate | intros (? & ? & ?); try discriminate; lia]);
    try (split; [intros _; repeat split; lia | reflexivity]).
  - change (Pos.compare_cont Eq mx my) with (Pos.compare mx my).
    destruct (Z.compare_spec ex ey); destruct (Pos.compare_spec mx my); cbn;
      (split; [try discriminate; intros _; repeat split; lia
              | intros (_ & _ & ?); try reflexivity; lia]).
  - change (Pos.compare_cont Eq mx my) with (Pos.compare mx my).
    destruct (Z.compare_spec ex ey); destruct (Pos.compare_spec mx my); cbn;
      (split; [try discriminate; intros _; repeat split; lia
              | intros (_ & _ & ?); try reflexivity; lia]).
Qed.

(** Turns the comparisons of the context into facts about keys and leaves
    the arithmetic to [lia]. *)
Ltac by_keys :=
  repeat match goal with
         | H : SFltb _ _ = true |- _ => apply SFltb_key in H; destruct H as (? & ? & H)
         | H : SFleb _ _ = true |- _ => apply SFleb_key in H; destruct H as (? & ? & H)
         end;
  repeat match goal with
         | |- context [sf_key ?x] =>
           let a := fresh "k" in let b := fresh "k" in let c := fresh "k" in
           destruct (sf_key x) as [[a b] c]
         | H : context [sf_key ?x] |- _ =>
           let a := fresh "k" in let b := fresh "k" in let c := fresh "k" in
           destruct (sf_key x) as [[a b] c]
         end;
  unfold key_lt, key_le in *; try lia.

Lemma SFleb_not_ltb (x y : spec_float) : SFleb x y = true -> SFltb y x = false.
Proof.
  intros Hle. destruct (SFltb y x) eqn:Hlt; [exfalso | reflexivity].
  by_keys.
Qed.

Lemma SFltb_trans (x y z : spec_float) :
  SFltb x y = true -> SFltb y z = true -> SFltb x z = true.
Proof.
  intros Hxy Hyz. apply SFltb_key.
  apply SFltb_key in Hxy; destruct Hxy as (? & ? & Hxy).
  apply SFltb_key in Hyz; destruct Hyz as (? & ? & Hyz).
  repeat split; try assumption. by_keys.
Qed.

Lemma SFleb_trans (x y z : spec_float) :
  SFleb x y = true -> SFleb y z = true -> SFleb x z = true.
Proof.
  intros Hxy Hyz. apply SFleb_key.
  apply SFleb_key in Hxy; destruct Hxy as (? & ? & Hxy).
  apply SFleb_key in Hyz; destruct Hyz as (? & ? & Hyz).
  repeat split; try assumption. by_keys.
Qed.

Lemma SFltb_leb (x y : spec_float) : SFltb x y = true -> SFleb x y = true.
Proof.
  intros Hxy. apply SFleb_key.
  apply SFltb_key in Hxy; destruct Hxy as (? & ? & Hxy).
  repeat split; try assumption. by_keys.
Qed.

Lemma SFleb_refl (x : spec_float) : is_nan x = false -> SFleb x x = true.
Proof.
  intros Hx. apply SFleb_key. repeat split; try assumption. by_keys.
Qed.

Lemma SFleb_total (x y : spec_float) :
  is_nan x = false -> is_nan y = false -> SFltb y x = false -> SFleb x y = true.
Proof.
  intros Hx Hy Hlt. apply SFleb_key. repeat split; try assumption.
  assert (Hn : ~ key_lt (sf_key y) (sf_key x)).
  { intros Hk. rewrite (proj2 (SFltb_key y x)) in Hlt; [discriminate | auto]. }
  by_keys.
Qed.

Lemma SFleb_number (x y : spec_float) : SFleb x y = true -> is_nan y = false.
Proof. intros H. apply SFleb_key in H. tauto. Qed.

(** ** Storage calls *)

Lemma In_insert_row (r : Marker) (rows : list Marker) : In r (insert_row r rows).
Proof.
  induction rows as [|x rest IH]; cbn.
  - now left.
  - destruct (ID r <? ID x)%N; cbn; auto.
Qed.

Lemma In_replace_row (r : Marker) (rows : list Marker) :
  has_id (ID r) rows = true -> In r (replace_row r rows).
Proof.
  unfold has_id, replace_row. intros H.
  apply existsb_exists in H. destruct H as (x & Hin & Hid).
  apply in_map_iff. exists x. rewrite Hid. auto.
Qed.

Lemma db_fault_tables (s : Store) :
  markers (snd (db_fault s)) = markers s /\ faces (snd (db_fault s)) = faces s /\
  subjects (snd (db_fault s)) = subjects s /\ clock (snd (db_fault s)) = clock s.
Proof.
  unfold db_fault. destruct (faults s) as [|[msg|] rest]; cbn; auto.
Qed.


Lemma db_Save_stored (m m' : Marker) (s s' : Store) :
  db_Save m s = ((m', None), s') -> In (row_of m') (markers s').
Proof.
  unfold db_Save. destruct (db_fault s) as [[e|] s1]; [discriminate|].
  destruct (ID m =? 0)%N.
  - intros H. injection H as <- <-. cbn. apply In_insert_row.
  - destruct (has_id (ID m) (markers s1)) eqn:Hid; intros H; injection H as <- <-; cbn.
    + apply In_replace_row. exact Hid.
    + apply In_insert_row.
Qed.

Lemma db_Create_stored (m m' : Marker) (s s' : Store) :
  db_Create m s = ((m', None), s') -> In (row_of m') (markers s').
Proof.
  unfold db_Create. destruct (db_fault s) as [[e|] s1]; [discriminate|].
  destruct (has_id _ (markers s1)); [discriminate|].
  intros H. injection H as <- <-. cbn. apply In_insert_row.
Qed.



Lemma lift_eq {A : Type} (c : Store -> A * Store) (w : World) :
  lift c w = (fst (c (store w)), {| store := snd (c (store w)); calls := calls w |}).
Proof. unfold lift. now destruct (c (store w)). Qed.

(** ** Position check of [Save] and [Create] *)



Lemma db_Updates_written (m : Marker) (vs : Values) (s : Store) :
  fst (fst (db_Updates m vs s)) = assign_all vs m /\
  written m vs s (snd (db_Updates m vs s)) (snd (fst (db_Updates m vs s))).
Proof.
  unfold db_Updates, written.
  pose proof (db_fault_tables s) as (Hm & Hf & Hs & Hc).
  destruct (db_fault s) as [[e|] s1]; cbn in *; rewrite ?Hm; repeat split; auto.
Qed.

Lemma Updates_written (m : Marker) (vs : Values) (w : World) :
  exists err w',
    Updates m vs w = ((assign_all vs m, err), w') /\
    calls w' = calls w /\ written m vs (store w) (store w') err.
Proof.
  unfold Updates. rewrite lift_eq.
  destruct (db_Updates_written m vs (store w)) as (Hm & Hw).
  destruct (db_Updates m vs (store w)) as [[m' err] s']. cbn in *. subst m'.
  exists err. eexists. split; [reflexivity|]. cbn. auto.
Qed.

(** ** Face assignment: [SetFace] *)

Section SetFaceProperties.

Context {C : Collaborators}.

Lemma Marker_Embeddings_object (m : Marker) :
  snd (Marker_Embeddings m) = set_embeddings (embeddings (snd (Marker_Embeddings m))) m.
Proof.
  unfold Marker_Embeddings.
  destruct (List.length (EmbeddingsJSON m) =? 0)%nat; [now destruct m|].
  destruct (0 <? List.length (embeddings m))%nat; [now destruct m|].
  destruct (json_Unmarshal _ _). reflexivity.
Qed.

(** C1. For a face marker whose subject was set manually and is not empty,
    and a face whose subject is not empty and differs from it, [SetFace]
    calls the face's collision reporter once, with the marker's embeddings,
    and makes no other call; it returns [updated = false] with the error of
    the reporter, which is none when the collision was reported; the marker
    keeps its [SubjectUID] and every field but the parsed embeddings, and
    the storage is the one the reporter left, so nothing was assigned. *)
Theorem C1_setface_conflict (m : Marker) (f : Face) (d : float64) (w : World) :
  MarkerType m = MarkerFace ->
  SubjectSrc m = SrcManual ->
  SubjectUID m <> "" ->
  face_SubjectUID f <> "" ->
  face_SubjectUID f <> SubjectUID m ->
  let emb := fst (Marker_Embeddings m) in
  let m' := snd (Marker_Embeddings m) in
  let r := ReportCollision f emb (store w) in
  SetFace m (Some f) d w =
    ((m', Some f, false, snd (fst r)),
     {| store := snd r; calls := calls w ++ [CallReportCollision f emb] |}) /\
  m' = set_embeddings (embeddings m') m /\
  SubjectUID m' = SubjectUID m.
Proof.
  intros Htype Hsrc Hm Hf Hne emb m' r.
  assert (Hobj : m' = set_embeddings (embeddings m') m)
    by apply Marker_Embeddings_object.
  split; [|split; [exact Hobj | now rewrite Hobj]].
  unfold SetFace, no_conflict.
  apply String.eqb_eq in Htype, Hsrc.
  apply String.eqb_neq in Hm, Hf, Hne.
  rewrite Htype, Hsrc, Hm, Hf, Hne. cbn [negb orb].
  subst emb m' r. destruct (Marker_Embeddings m) as [emb m'].
  unfold bind, call_ReportCollision. cbn [fst snd].
  destruct (ReportCollision f emb (store w)) as [[reported [e|]] s']; cbn;
    [reflexivity | now destruct reported].
Qed.

(** C4. For a face marker that already carries the face's id and the face's
    subject, [SetFace] with that face, whatever the distance, returns
    [updated = false] and changes nothing of the marker but [MatchedAt]:
    [FaceID], [FaceDist], [SubjectUID] and [SubjectSrc] are as before.  The
    face is not touched, no collaborator is called, and the only write is
    that of the [MatchedAt] column of the marker's row. *)
Theorem C4_setface_same_face (m : Marker) (f : Face) (d : float64) (w : World) :
  MarkerType m = MarkerFace ->
  FaceID m = face_ID f ->
  SubjectUID m = face_SubjectUID f ->
  let t := Some (clock (store w)) in
  exists err w',
    SetFace m (Some f) d w = ((set_MatchedAt t m, Some f, false, err), w') /\
    calls w' = calls w /\
    written m [Col_MatchedAt t] (store w) (store w') err /\
    FaceID (set_MatchedAt t m) = FaceID m /\
    FaceDist (set_MatchedAt t m) = FaceDist m /\
    SubjectUID (set_MatchedAt t m) = SubjectUID m /\
    SubjectSrc (set_MatchedAt t m) = SubjectSrc m.
Proof.
  intros Htype Hface Hsubj t.
  destruct (Updates_written (set_MatchedAt t m) [Col_MatchedAt t] w)
    as (err & w' & Hup & Hcalls & Hw).
  exists err, w'. repeat split; try assumption; try apply Hw.
  unfold SetFace, no_conflict.
  apply String.eqb_eq in Htype. rewrite Htype.
  assert (Heq : (face_SubjectUID f =? SubjectUID m) = true)
    by (apply String.eqb_eq; congruence).
  rewrite Heq, !orb_true_r. cbn [negb].
  unfold SetFace_match, SetFace_adopt, same_face, bind.
  assert (Hskip : negb (face_SubjectUID f =? "") || (SubjectUID m =? "") = true).
  { rewrite <- Hsubj. destruct (SubjectUID m =? ""); reflexivity. }
  rewrite Hskip. unfold ret at 1.
  assert (Hsame : (SubjectUID m =? face_SubjectUID f) && (FaceID m =? face_ID f) = true).
  { apply andb_true_iff. split; apply String.eqb_eq; assumption. }
  rewrite Hsame. unfold TimePointer. fold t.
  change (MatchedAt (set_MatchedAt t m)) with t.
  rewrite Hup. reflexivity.
Qed.

End SetFaceProperties.

Lemma C1_setface_conflict_witness :
  SetFace (C := Reference.collaborators) Reference.marker_alice
    (Some Reference.face_bob) F64.minus_one
    (Reference.world_of Reference.store1) =
  ((Reference.marker_alice, Some Reference.face_bob, false, None),
   {| store :=
        snd (Reference.report_collision Reference.face_bob Reference.embeddings_parsed
               Reference.store1);
      calls := [CallReportCollision Reference.face_bob Reference.embeddings_parsed] |}).
Proof.
  refine (proj1 (C1_setface_conflict (C := Reference.collaborators)
                   Reference.marker_alice Reference.face_bob
                   F64.minus_one (Reference.world_of Reference.store1) _ _ _ _ _));
    vm_compute; (reflexivity || discriminate).
Defined.

Lemma C4_setface_same_face_witness :
  exists err w',
    SetFace (C := Reference.collaborators) Reference.marker_alice
      (Some Reference.face_alice) F64.minus_one
      (Reference.world_of Reference.store1) =
    ((set_MatchedAt (Some 1000) Reference.marker_alice, Some Reference.face_alice,
      false, err), w') /\
    calls w' = [] /\
    written Reference.marker_alice [Col_MatchedAt (Some 1000)] Reference.store1
      (store w') err /\
    FaceID (set_MatchedAt (Some 1000) Reference.marker_alice) = "F1" /\
    FaceDist (set_MatchedAt (Some 1000) Reference.marker_alice) = Reference.half64 /\
    SubjectUID (set_MatchedAt (Some 1000) Reference.marker_alice) = "S-alice" /\
    SubjectSrc (set_MatchedAt (Some 1000) Reference.marker_alice) = "manual".
Proof.
  refine (C4_setface_same_face (C := Reference.collaborators)
            Reference.marker_alice Reference.face_alice
            F64.minus_one (Reference.world_of Reference.store1) _ _ _);
    reflexivity.
Defined.

(** ** Clearing identity: [ClearFace] and [ClearSubject] *)

Section ClearProperties.

Context {C : Collaborators}.

(** C7. With no face set, [ClearFace] only sets [MatchedAt] and returns
    [updated = false].  With a face set it returns [updated = true], drops
    the face reference, empties [FaceID], sets [FaceDist] to -1 and sets
    [MatchedAt]; it empties [SubjectUID] as well exactly when [SubjectSrc]
    is the automatic tag, and writes the subject column only then.  In
    particular a subject set manually keeps [SubjectUID] and [SubjectSrc].
    Nothing else of the marker changes and no collaborator is called. *)
Theorem C7_clearface (m : Marker) (w : World) :
  let t := Some (clock (store w)) in
  let detached :=
    set_FaceDist F64.minus_one (set_MatchedAt t (set_FaceID "" (set_FaceRef None m))) in
  let cleared := if SubjectSrc m =? SrcAuto then set_SubjectUID "" detached else detached in
  let columns :=
    if SubjectSrc m =? SrcAuto
    then [Col_FaceID ""; Col_FaceDist F64.minus_one; Col_SubjectUID ""; Col_MatchedAt t]
    else [Col_FaceID ""; Col_FaceDist F64.minus_one; Col_MatchedAt t] in
  (FaceID m = "" ->
   exists err w',
     ClearFace m w = ((set_MatchedAt t m, false, err), w') /\
     calls w' = calls w /\
     written m [Col_MatchedAt t] (store w) (store w') err) /\
  (FaceID m <> "" ->
   exists err w',
     ClearFace m w = ((cleared, true, err), w') /\
     calls w' = calls w /\
     written m columns (store w) (store w') err) /\
  (SubjectSrc m = SrcAuto -> SubjectUID cleared = "" /\ SubjectSrc cleared = SrcAuto) /\
  (SubjectSrc m <> SrcAuto ->
   SubjectUID cleared = SubjectUID m /\ SubjectSrc cleared = SubjectSrc m) /\
  (SrcManual <> SrcAuto -> SubjectSrc m = SrcManual ->
   SubjectUID cleared = SubjectUID m /\ SubjectSrc cleared = SrcManual).
Proof.
  intros t detached cleared columns.
  assert (Hmanual : SubjectSrc m <> SrcAuto ->
                    SubjectUID cleared = SubjectUID m /\ SubjectSrc cleared = SubjectSrc m).
  { intros H. apply String.eqb_neq in H. subst cleared. rewrite H. split; reflexivity. }
  split; [|split; [|split; [|split]]].
  - intros Hface. apply String.eqb_eq in Hface.
    destruct (Updates_written (set_MatchedAt t m) [Col_MatchedAt t] w)
      as (err & w' & Hup & Hcalls & Hw).
    exists err, w'. repeat split; try assumption; try apply Hw.
    unfold ClearFace, Matched, bind, TimePointer. rewrite Hface. fold t.
    change (lift (db_Updates (set_MatchedAt t m) [Col_MatchedAt (MatchedAt (set_MatchedAt t m))]))
      with (Updates (set_MatchedAt t m) [Col_MatchedAt t]).
    rewrite Hup. reflexivity.
  - intros Hface. apply String.eqb_neq in Hface.
    unfold ClearFace, bind, TimePointer. rewrite Hface. fold t.
    subst cleared columns. cbn [SubjectSrc set_MatchedAt set_FaceID set_FaceRef].
    destruct (SubjectSrc m =? SrcAuto).
    + match goal with
      | |- context [Updates ?m1 ?vs w] =>
        destruct (Updates_written m1 vs w) as (err & w' & Hup & Hcalls & Hw);
        exists err, w'; rewrite Hup
      end.
      repeat split; try assumption; apply Hw.
    + match goal with
      | |- context [Updates ?m1 ?vs w] =>
        destruct (Updates_written m1 vs w) as (err & w' & Hup & Hcalls & Hw);
        exists err, w'; rewrite Hup
      end.
      repeat split; try assumption; apply Hw.
  - intros Hauto. subst cleared. rewrite Hauto, String.eqb_refl. split; [reflexivity | exact Hauto].
  - exact Hmanual.
  - intros Htags Hsrc.
    destruct Hmanual as (H1 & H2); [congruence|]. split; congruence.
Qed.

(** What [ClearSubject] does, case by case: with a face found and the
    reporter failing, the error is returned and nothing is written; with a
    face found and the reporter succeeding, the cleared columns are written
    and the object is cleared; with no face found, the object is cleared
    and nothing is written. *)
Lemma ClearSubject_cases (m : Marker) (src : string) (w : World) :
  let found := match FaceRef m with
               | Some f => (Some f, store w)
               | None => FindFace (FaceID m) (store w)
               end in
  let m0 := set_FaceRef (fst found) m in
  let columns := [Col_MarkerName ""; Col_FaceID ""; Col_FaceDist F64.minus_one;
                  Col_SubjectUID ""; Col_SubjectSrc src] in
  match fst found with
  | None =>
    ClearSubject m src w =
      ((clear_subject_fields src m, None), {| store := snd found; calls := calls w |})
  | Some f =>
    let emb := fst (Marker_Embeddings m0) in
    let m1 := snd (Marker_Embeddings m0) in
    let r := ReportCollision f emb (snd found) in
    let w1 := {| store := snd r; calls := calls w ++ [CallReportCollision f emb] |} in
    match snd (fst r) with
    | Some e => ClearSubject m src w = ((m1, Some e), w1)
    | None =>
      exists err w',
        written m columns (snd r) (store w') err /\
        calls w' = calls w1 /\
        ClearSubject m src w =
          ((match err with
            | Some _ => assign_all columns m1
            | None => clear_subject_fields src m1
            end, err), w')
    end
  end.
Proof.
  intros found m0 columns.
  assert (Hstep :
    (match FaceRef m with
     | None => f <- lift (FindFace (FaceID m)) ;; ret (set_FaceRef f m)
     | Some _ => ret m
     end) w = (m0, {| store := snd found; calls := calls w |})).
  { subst m0 found. destruct (FaceRef m) as [f|] eqn:Hf; cbn.
    - unfold ret. destruct w, m; cbn in *. now subst.
    - unfold bind. rewrite lift_eq. reflexivity. }
  unfold ClearSubject.
  assert (Hrun : forall k : Marker -> M (Marker * option error),
             (m1 <- (match FaceRef m with
                     | None => f <- lift (FindFace (FaceID m)) ;; ret (set_FaceRef f m)
                     | Some _ => ret m
                     end) ;; k m1) w =
             k m0 {| store := snd found; calls := calls w |}).
  { intros k. unfold bind at 1. now rewrite Hstep. }
  rewrite Hrun. change (FaceRef m0) with (fst found).
  destruct (fst found) as [f|] eqn:Hfound.
  - cbn zeta. destruct (Marker_Embeddings m0) as [emb m1] eqn:Hemb. cbn [fst snd].
    unfold bind, call_ReportCollision. cbn [store calls].
    destruct (ReportCollision f emb (snd found)) as [[reported [e|]] s1]; cbn [fst snd].
    + reflexivity.
    + destruct (Updates_written m1 columns
                  {| store := s1; calls := calls w ++ [CallReportCollision f emb] |})
        as (err & w' & Hup & Hcalls & Hw).
      exists err, w'. fold columns. rewrite Hup.
      assert (Hid : ID m1 = ID m).
      { pose proof (Marker_Embeddings_object m0) as H. rewrite Hemb in H. cbn in H.
        rewrite H. reflexivity. }
      split; [|split; [exact Hcalls|]].
      * unfold written in *. rewrite <- Hid. exact Hw.
      * destruct err; reflexivity.
  - reflexivity.
Qed.

End ClearProperties.

(** C8, at a marker whose face is not found.  Marker 4 carries the subject
    S-bob and the id of a face that is not in the table.  [ClearSubject]
    returns no error and clears the object, and the marker's row is as it
    was: it still carries the name, the face id and the subject. *)
Theorem C8_clearsubject_not_persisted :
  let r := ClearSubject (C := Reference.collaborators) Reference.marker_orphan "manual"
             (Reference.world_of Reference.store_orphan) in
  snd (fst r) = None /\
  fst (fst r) = clear_subject_fields "manual" Reference.marker_orphan /\
  SubjectUID (fst (fst r)) = "" /\
  markers (store (snd r)) = [Reference.marker_orphan] /\
  map SubjectUID (markers (store (snd r))) = ["S-bob"] /\
  calls (snd r) = [].
Proof. vm_compute. repeat split. Qed.

(** ** Deduplication on ingest: [UpdateOrCreateMarker] *)

Lemma db_First_spec (cond : Marker -> bool) (s s1 : Store) (r : option Marker) :
  db_First cond s = (r, s1) ->
  markers s1 = markers s /\ faces s1 = faces s /\ subjects s1 = subjects s /\
  clock s1 = clock s /\
  (forall x, r = Some x -> In x (markers s) /\ cond x = true).
Proof.
  unfold db_First. pose proof (db_fault_tables s) as (Hm & Hf & Hs & Hc).
  destruct (db_fault s) as [[e|] s0]; cbn in *; intros H; injection H as <- <-;
    (split; [|split; [|split; [|split]]]); try assumption.
  - discriminate.
  - intros x Hx. rewrite Hm in Hx. now apply find_some in Hx.
Qed.

Lemma Forall2_update_rows (P : Marker -> Marker -> Prop) (cond : Marker -> bool)
  (vs : Values) (rows : list Marker) :
  (forall r, P r r) -> (forall r, P r (assign_all vs r)) ->
  Forall2 P rows (update_rows cond vs rows).
Proof.
  intros Hrefl Hassign. induction rows as [|r rest IH]; cbn; constructor; auto.
  destruct (cond r); auto.
Qed.

Lemma Forall2_same (P : Marker -> Marker -> Prop) (rows : list Marker) :
  (forall r, P r r) -> Forall2 P rows rows.
Proof. intros Hrefl. induction rows; constructor; auto. Qed.

Section IngestProperties.

Context {C : Collaborators}.

Lemma candidate_values_overwrite (m existing : Marker) :
  assign_all (candidate_values m) existing = overwrite m existing.
Proof. reflexivity. Qed.

Lemma UpdateOrCreateMarker_overwrites (m existing : Marker) (w : World) (s1 : Store) :
  ID m = 0%N ->
  db_First (near_duplicate m) (store w) = (Some existing, s1) ->
  (SrcPriority (MarkerSrc m) <? SrcPriority (MarkerSrc existing))%Z = false ->
  exists err w',
    UpdateOrCreateMarker m w = ((overwrite m existing, err), w') /\
    calls w' = calls w /\
    written existing (candidate_values m) s1 (store w') err.
Proof.
  intros Hid Hq Hprio.
  unfold UpdateOrCreateMarker. rewrite Hid. cbn [N.ltb N.compare].
  unfold bind. rewrite lift_eq, Hq. cbn [fst snd]. rewrite Hprio.
  destruct (Updates_written existing (candidate_values m)
              {| store := s1; calls := calls w |}) as (err & w' & Hup & Hcalls & Hw).
  exists err, w'. rewrite Hup, candidate_values_overwrite. auto.
Qed.

(** C2, as the code has it.  For a candidate without id, let the query for a
    marker of the same file within the tolerance return [r].  If it found
    [existing], a stored row that passes the test, then: with a priority of
    the existing source strictly above the candidate's, the existing marker
    is returned as it is and nothing is written; otherwise the candidate's
    X, Y, W, H, score, landmarks, embeddings and subject are written over
    those of the existing marker, on the object returned and in its row.
    If it found none, the candidate goes through [Create]: one with an
    invalid position is rejected and nothing is inserted, any other is
    inserted as a new row unless the storage fails. *)
Theorem C2_update_or_create (m : Marker) (w : World) (r : option Marker) (s1 : Store) :
  ID m = 0%N ->
  db_First (near_duplicate m) (store w) = (r, s1) ->
  let w1 := {| store := s1; calls := calls w |} in
  markers s1 = markers (store w) /\
  match r with
  | Some existing =>
    In existing (markers (store w)) /\ near_duplicate m existing = true /\
    if (SrcPriority (MarkerSrc m) <? SrcPriority (MarkerSrc existing))%Z
    then UpdateOrCreateMarker m w = ((existing, None), w1)
    else
      exists err w',
        UpdateOrCreateMarker m w = ((overwrite m existing, err), w') /\
        calls w' = calls w /\
        written existing (candidate_values m) s1 (store w') err
  | None =>
    if invalid_position m
    then UpdateOrCreateMarker m w = ((m, Some err_invalid_position), w1)
    else
      UpdateOrCreateMarker m w = lift (db_Create m) w1 /\
      forall m' w',
        UpdateOrCreateMarker m w = ((m', None), w') ->
        m' = set_ID (next_id (markers (store w))) m /\
        In (row_of m') (markers (store w'))
  end.
Proof.
  intros Hid Hq w1.
  destruct (db_First_spec _ _ _ _ Hq) as (Hm & _ & _ & _ & Hfound).
  split; [exact Hm|].
  assert (Hrun : forall k : option Marker -> M (Marker * option error),
             (x <- lift (db_First (near_duplicate m)) ;; k x) w = k r w1).
  { intros k. unfold bind. rewrite lift_eq, Hq. reflexivity. }
  unfold UpdateOrCreateMarker. rewrite Hid. cbn [N.ltb N.compare]. rewrite Hrun.
  destruct r as [existing|].
  - destruct (Hfound existing eq_refl) as (Hin & Hnear).
    split; [exact Hin | split; [exact Hnear|]].
    destruct (SrcPriority (MarkerSrc m) <? SrcPriority (MarkerSrc existing))%Z.
    + reflexivity.
    + destruct (Updates_written existing (candidate_values m) w1)
        as (err & w' & Hup & Hcalls & Hw).
      exists err, w'. rewrite Hup, candidate_values_overwrite. auto.
  - unfold Create, bind. destruct (invalid_position m); [reflexivity|].
    rewrite !lift_eq. change (store w1) with s1. change (calls w1) with (calls w).
    destruct (db_Create m s1) as [[m1 [e|]] s2] eqn:Hc; cbn [fst snd].
    + split; [reflexivity | discriminate].
    + split; [reflexivity|]. intros m' w' H. injection H as <- <-. cbn [store].
      split; [|apply (db_Create_stored _ _ _ _ Hc)].
      revert Hc. unfold db_Create. destruct (db_fault s1) as [[e|] s0] eqn:Hf; [discriminate|].
      rewrite Hid. cbn [N.eqb].
      destruct (has_id _ (markers s0)); [discriminate|].
      intros H. injection H as <- _.
      pose proof (db_fault_tables s1) as (Hm0 & _). rewrite Hf in Hm0. cbn in Hm0.
      now rewrite Hm0, Hm.
Qed.

(** C10. When [UpdateOrCreateMarker] overwrites a near-duplicate, the marker
    it returns is the existing one with the candidate's X, Y, W, H, score,
    landmarks, embeddings and subject and nothing else of the candidate: it
    keeps its own [MarkerSrc], [SubjectSrc], [MarkerType], [MarkerName],
    [FaceID], [FaceDist], [Size] and [MarkerInvalid], and so does every row
    of the table. *)
Theorem C10_overwrite_keeps_tags (m existing : Marker) (w : World) (s1 : Store) :
  ID m = 0%N ->
  db_First (near_duplicate m) (store w) = (Some existing, s1) ->
  (SrcPriority (MarkerSrc m) <? SrcPriority (MarkerSrc existing))%Z = false ->
  exists err w',
    UpdateOrCreateMarker m w = ((overwrite m existing, err), w') /\
    keeps_tags existing (overwrite m existing) /\
    Forall2 keeps_tags (markers (store w)) (markers (store w')).
Proof.
  intros Hid Hq Hprio.
  destruct (UpdateOrCreateMarker_overwrites m existing w s1 Hid Hq Hprio)
    as (err & w' & Hrun & _ & Hw).
  exists err, w'. split; [exact Hrun|]. split; [repeat split|].
  destruct (db_First_spec _ _ _ _ Hq) as (Hm & _).
  destruct Hw as (_ & _ & _ & Hrows). rewrite <- Hm.
  assert (Hrefl : forall r, keeps_tags r r) by (intros r; repeat split).
  destruct err; rewrite Hrows.
  - now apply Forall2_same.
  - apply Forall2_update_rows; [exact Hrefl | intros r; repeat split].
Qed.

End IngestProperties.

Lemma C2_update_or_create_witness :
  exists err w',
    UpdateOrCreateMarker (C := Reference.collaborators) Reference.marker0
      (Reference.world_of Reference.store1) =
    ((overwrite Reference.marker0 (row_of Reference.marker_alice), err), w') /\
    calls w' = [] /\
    written (row_of Reference.marker_alice) (candidate_values Reference.marker0)
      Reference.store1 (store w') err.
Proof.
  refine (proj2 (proj2 (proj2
    (C2_update_or_create (C := Reference.collaborators) Reference.marker0
       (Reference.world_of Reference.store1) (Some (row_of Reference.marker_alice))
       Reference.store1 _ _)))); reflexivity.
Defined.

(** C2 as stated fails for a candidate with an invalid position: with no
    marker stored at all, so that no near-duplicate exists, the candidate at
    X = 0 is not inserted; the call returns the invalid-position error and
    the table stays empty. *)
Lemma C2_invalid_candidate_not_inserted :
  ID Reference.marker_edge = 0%N /\
  find (near_duplicate Reference.marker_edge) (markers Reference.empty_store) = None /\
  UpdateOrCreateMarker (C := Reference.collaborators) Reference.marker_edge
    (Reference.world_of Reference.empty_store) =
  ((Reference.marker_edge, Some err_invalid_position),
   Reference.world_of Reference.empty_store) /\
  markers Reference.empty_store = [].
Proof. repeat split. Qed.

Lemma C10_overwrite_keeps_tags_witness :
  exists err w',
    UpdateOrCreateMarker (C := Reference.collaborators) Reference.marker0
      (Reference.world_of Reference.store1) =
    ((overwrite Reference.marker0 (row_of Reference.marker_alice), err), w') /\
    keeps_tags (row_of Reference.marker_alice)
      (overwrite Reference.marker0 (row_of Reference.marker_alice)) /\
    Forall2 keeps_tags (markers Reference.store1) (markers (store w')).
Proof.
  refine (C10_overwrite_keeps_tags (C := Reference.collaborators) Reference.marker0
            (row_of Reference.marker_alice) (Reference.world_of Reference.store1)
            Reference.store1 _ _ _); reflexivity.
Defined.

(** ** Subject synchronization leaves the rest of the marker alone *)

Section SyncProperties.

Context {C : Collaborators}.

(** Runs the monadic code of the goal one case at a time. *)
Ltac run :=
  unfold bind, ret; rewrite ?lift_eq; cbn [fst snd];
  repeat (match goal with
          | |- context [match ?x with _ => _ end] => destruct x eqn:?
          end; rewrite ?lift_eq; cbn [fst snd]).

Lemma Marker_Embeddings_frame (m : Marker) :
  outside_sync (snd (Marker_Embeddings m)) = outside_sync m /\
  SubjectUID (snd (Marker_Embeddings m)) = SubjectUID m /\
  SubjectSrc (snd (Marker_Embeddings m)) = SubjectSrc m /\
  FaceID (snd (Marker_Embeddings m)) = FaceID m.
Proof. rewrite Marker_Embeddings_object. repeat split. Qed.

Lemma GetSubject_frame (m : Marker) (w : World) :
  outside_sync (snd (fst (GetSubject m w))) = outside_sync m.
Proof. unfold GetSubject. run; reflexivity. Qed.

Lemma GetFace_frame (m : Marker) (w : World) :
  outside_sync (snd (fst (GetFace m w))) = outside_sync m.
Proof.
  unfold GetFace.
  destruct (Marker_Embeddings_frame m) as (He & _).
  run; try reflexivity; exact He.
Qed.

Lemma SyncSubject_name_frame (subj : Subject) (m : Marker) (w : World) :
  outside_sync (fst (fst (SyncSubject_name subj m w))) = outside_sync m.
Proof. unfold SyncSubject_name, alias_subject. run; reflexivity. Qed.

Lemma SyncSubject_face_frame (m : Marker) (w : World) :
  outside_sync (fst (SyncSubject_face m w)) = outside_sync m.
Proof.
  unfold SyncSubject_face, bind.
  destruct (negb (FaceID m =? "") || negb (SubjectSrc m =? SrcManual)); [reflexivity|].
  pose proof (GetFace_frame m w) as Hf.
  destruct (GetFace m w) as [[f m1] w1]. cbn in Hf. destruct f; exact Hf.
Qed.

Lemma SyncSubject_related_object (m : Marker) (b : bool) (w : World) :
  fst (fst (SyncSubject_related m b w)) = m.
Proof. unfold SyncSubject_related. run; reflexivity. Qed.

Lemma SyncSubject_frame (m : Marker) (b : bool) (w : World) :
  outside_sync (fst (fst (SyncSubject m b w))) = outside_sync m.
Proof.
  unfold SyncSubject, bind.
  destruct (negb (MarkerType m =? MarkerFace)); [reflexivity|].
  pose proof (GetSubject_frame m w) as H1.
  destruct (GetSubject m w) as [[subj m1] w1]. cbn in H1.
  destruct subj as [subj|]; [|exact H1].
  pose proof (SyncSubject_name_frame subj m1 w1) as H2.
  destruct (SyncSubject_name subj m1 w1) as [[m2 err] w2]. cbn in H2.
  destruct err as [e|]; [cbn; congruence|].
  pose proof (SyncSubject_face_frame m2 w2) as H3.
  destruct (SyncSubject_face m2 w2) as [m3 w3]. cbn in H3.
  rewrite SyncSubject_related_object. congruence.
Qed.

Lemma Save_frame (m : Marker) (w : World) :
  Score (fst (fst (Save m w))) = Score m /\
  MarkerInvalid (fst (fst (Save m w))) = MarkerInvalid m.
Proof.
  unfold Save, db_Save. run; split; reflexivity.
Qed.

Lemma Save_stored (m m' : Marker) (w w' : World) :
  Save m w = ((m', None), w') -> In (row_of m') (markers (store w')).
Proof.
  unfold Save. destruct (invalid_position m); [discriminate|].
  rewrite lift_eq. intros H. injection H as H1 H2. subst w'. cbn.
  apply (db_Save_stored m m' (store w)).
  destruct (db_Save m (store w)) as [[m1 e1] s1]. cbn in *. congruence.
Qed.

(** C9, as the code has it.  After [SaveForm] the marker satisfies the
    score invariant, whatever the form and whatever the outcome, and carries
    the form's validity flag; and when [SaveForm] returns no error, either
    the marker's row is in the table or the marker and the state are as
    they were. *)
Theorem C9_saveform_score (m : Marker) (f : FormMarker) (w : World) :
  let r := SaveForm m f w in
  score_invariant (fst (fst r)) /\
  MarkerInvalid (fst (fst r)) = form_MarkerInvalid f /\
  (snd (fst r) = None ->
   In (row_of (fst (fst r))) (markers (store (snd r))) \/ r = ((m, None), w)).
Proof.
  assert (Htail : forall (m4 : Marker) (changed : bool),
    score_invariant m4 -> MarkerInvalid m4 = form_MarkerInvalid f ->
    (changed = false -> m4 = m) ->
    let r :=
      (if (form_SubjectSrc f =? SrcManual) && negb (TrimSpace (form_MarkerName f) =? "")
       then
         let m5 := set_SubjectSrc SrcManual m4 in
         let m6 := set_MarkerName (Title (Clip (form_MarkerName f) ClipDefault)) m5 in
         '(m7, err) <- SyncSubject m6 true ;;
         match err with
         | Some e => ret (m7, Some e)
         | None => Save m7
         end
       else if changed then Save m4 else ret (m4, None)) w in
    score_invariant (fst (fst r)) /\
    MarkerInvalid (fst (fst r)) = form_MarkerInvalid f /\
    (snd (fst r) = None ->
     In (row_of (fst (fst r))) (markers (store (snd r))) \/ r = ((m, None), w))).
  { intros m4 changed Hinv Hflag Hsame.
    assert (Hkeep : forall m', Score m' = Score m4 -> MarkerInvalid m' = MarkerInvalid m4 ->
                          score_invariant m' /\ MarkerInvalid m' = form_MarkerInvalid f).
    { intros m' Hs Hi. unfold score_invariant in *. rewrite Hs, Hi. auto. }
    assert (Hsave : forall m0 w0,
               Score m0 = Score m4 -> MarkerInvalid m0 = MarkerInvalid m4 ->
               let r := Save m0 w0 in
               score_invariant (fst (fst r)) /\
               MarkerInvalid (fst (fst r)) = form_MarkerInvalid f /\
               (snd (fst r) = None ->
                In (row_of (fst (fst r))) (markers (store (snd r))) \/ r = ((m, None), w))).
    { intros m0 w0 Hs Hi r. destruct (Save_frame m0 w0) as (Hs' & Hi').
      destruct (Hkeep (fst (fst r))) as (H1 & H2);
        [subst r; congruence | subst r; congruence |].
      split; [exact H1 | split; [exact H2|]].
      intros Herr. left. apply (Save_stored m0 _ w0).
      subst r. destruct (Save m0 w0) as [[m' e'] w']. cbn in *. now subst. }
    cbn zeta.
    destruct ((form_SubjectSrc f =? SrcManual)
              && negb (TrimSpace (form_MarkerName f) =? "")).
    - unfold bind.
      pose proof (SyncSubject_frame
                    (set_MarkerName (Title (Clip (form_MarkerName f) ClipDefault))
                       (set_SubjectSrc SrcManual m4)) true w) as Hf.
      destruct (SyncSubject _ true w) as [[m7 err] w7]. cbn in Hf.
      assert (Hs7 : Score m7 = Score m4) by (injection Hf; intros; congruence).
      assert (Hi7 : MarkerInvalid m7 = MarkerInvalid m4) by (injection Hf; intros; congruence).
      destruct err as [e|].
      + cbn. destruct (Hkeep m7 Hs7 Hi7). repeat split; try assumption. discriminate.
      + apply Hsave; assumption.
    - destruct changed.
      + apply Hsave; reflexivity.
      + cbn. split; [exact Hinv | split; [exact Hflag|]].
        intros _. right. now rewrite Hsame. }
  unfold SaveForm.
  destruct (negb (Bool.eqb (MarkerInvalid m) (form_MarkerInvalid f))) eqn:E0.
  - set (m1 := set_MarkerInvalid (form_MarkerInvalid f) m).
    destruct (negb (MarkerInvalid m1) && (Score m1 <? 100)%Z) eqn:E1.
    + apply (Htail (set_Score 100 m1) true); [intros _; cbn; lia | reflexivity | discriminate].
    + apply (Htail m1 true); [ | reflexivity | discriminate].
      unfold score_invariant. intros Hv. rewrite Hv in E1. cbn [negb andb] in E1.
      now apply Z.ltb_ge in E1.
  - assert (Hflag : MarkerInvalid m = form_MarkerInvalid f).
    { apply Bool.eqb_prop. now destruct (Bool.eqb (MarkerInvalid m) (form_MarkerInvalid f)). }
    destruct (negb (MarkerInvalid m) && (Score m <? 100)%Z) eqn:E1.
    + apply (Htail (set_Score 100 m) true); [intros _; cbn; lia | exact Hflag | discriminate].
    + apply (Htail m false); [ | exact Hflag | reflexivity].
      unfold score_invariant. intros Hv. rewrite Hv in E1. cbn [negb andb] in E1.
      now apply Z.ltb_ge in E1.
Qed.

End SyncProperties.

(** C9 as stated fails for [Create]: the face marker made from a detection
    of score 10 at a valid position is inserted as it is, and its row has
    [MarkerInvalid = false] and [Score = 10]. *)
Lemma C9_create_keeps_low_score :
  let m := NewFaceMarker (C := Reference.collaborators) Reference.detection0 7 "" in
  let r := Create m (Reference.world_of Reference.empty_store) in
  snd (fst r) = None /\
  markers (store (snd r)) = [row_of (set_ID 1 m)] /\
  MarkerInvalid (set_ID 1 m) = false /\
  Score (set_ID 1 m) = 10 /\
  ~ score_invariant (set_ID 1 m).
Proof.
  cbn zeta. repeat split.
  unfold score_invariant. cbn. intros H. specialize (H eq_refl). lia.
Qed.

(** ** The smallest distance of [SetFace] *)

Section DistanceProperties.

Context {C : Collaborators}.

Lemma matching_distances_cons (fe e : Embedding) (rest : Embeddings) :
  matching_distances fe (e :: rest) =
  if (List.length e =? List.length fe)%nat
  then EuclideanDistance e fe :: matching_distances fe rest
  else matching_distances fe rest.
Proof.
  unfold matching_distances. cbn.
  destruct (List.length e =? List.length fe)%nat; reflexivity.
Qed.

(** From a distance already known, the loop returns the smallest of it and
    the matching distances. *)
Lemma smallest_distance_from (fe : Embedding) (embs : Embeddings) :
  forall cur : float64,
  (forall d, In d (matching_distances fe embs) -> SFleb F64.zero d = true) ->
  SFleb F64.zero cur = true ->
  let r := smallest_distance fe embs cur in
  In r (cur :: matching_distances fe embs) /\
  SFleb r cur = true /\
  forall d, In d (matching_distances fe embs) -> SFleb r d = true.
Proof.
  induction embs as [|e rest IH]; intros cur Hpos Hcur; cbn zeta.
  - cbn. repeat split; [now left | | intros d []].
    apply SFleb_refl. exact (SFleb_number _ _ Hcur).
  - unfold smallest_distance in *. cbn [fold_left].
    rewrite matching_distances_cons in *.
    assert (Hstep : smallest_distance_step fe cur e =
                    if (List.length e =? List.length fe)%nat
                    then if SFltb (EuclideanDistance e fe) cur then EuclideanDistance e fe
                         else cur
                    else cur).
    { unfold smallest_distance_step.
      destruct (List.length e =? List.length fe)%nat; [|reflexivity].
      cbn [negb]. now rewrite (SFleb_not_ltb _ _ Hcur), orb_false_r. }
    rewrite Hstep. clear Hstep.
    destruct (List.length e =? List.length fe)%nat.
    + set (d := EuclideanDistance e fe) in *.
      assert (Hd : SFleb F64.zero d = true) by (apply Hpos; now left).
      assert (Hrest : forall x, In x (matching_distances fe rest) -> SFleb F64.zero x = true)
        by (intros x Hx; apply Hpos; now right).
      destruct (SFltb d cur) eqn:Hlt.
      * destruct (IH d Hrest Hd) as (Hin & Hle & Hall).
        repeat split.
        -- now right.
        -- apply (SFleb_trans _ d); [exact Hle | now apply SFltb_leb].
        -- intros x [<-|Hx]; [exact Hle | now apply Hall].
      * destruct (IH cur Hrest Hcur) as (Hin & Hle & Hall).
        repeat split.
        -- destruct Hin as [Hin|Hin]; [now left | right; now right].
        -- exact Hle.
        -- intros x [<-|Hx]; [|now apply Hall].
           apply (SFleb_trans _ cur); [exact Hle|].
           apply SFleb_total;
             [exact (SFleb_number _ _ Hcur) | exact (SFleb_number _ _ Hd) | exact Hlt].
    + apply IH; assumption.
Qed.

(** From the unset distance -1, the loop returns -1 when no embedding
    matches and the minimum of the matching distances otherwise. *)
Lemma smallest_distance_unset (fe : Embedding) (embs : Embeddings) :
  (forall d, In d (matching_distances fe embs) -> SFleb F64.zero d = true) ->
  match matching_distances fe embs with
  | [] => smallest_distance fe embs F64.minus_one = F64.minus_one
  | _ :: _ =>
    is_minimum (smallest_distance fe embs F64.minus_one) (matching_distances fe embs)
  end.
Proof.
  induction embs as [|e rest IH]; intros Hpos.
  - reflexivity.
  - unfold smallest_distance in *. cbn [fold_left].
    rewrite matching_distances_cons in *.
    assert (Hstep : smallest_distance_step fe F64.minus_one e =
                    if (List.length e =? List.length fe)%nat
                    then EuclideanDistance e fe
                    else F64.minus_one).
    { unfold smallest_distance_step.
      destruct (List.length e =? List.length fe)%nat; [|reflexivity].
      cbn [negb]. replace (SFltb F64.minus_one F64.zero) with true by reflexivity.
      now rewrite orb_true_r. }
    rewrite Hstep. clear Hstep.
    destruct (List.length e =? List.length fe)%nat.
    + set (d := EuclideanDistance e fe) in *.
      assert (Hd : SFleb F64.zero d = true) by (apply Hpos; now left).
      assert (Hrest : forall x, In x (matching_distances fe rest) -> SFleb F64.zero x = true)
        by (intros x Hx; apply Hpos; now right).
      destruct (smallest_distance_from fe rest d Hrest Hd) as (Hin & Hle & Hall).
      unfold smallest_distance in *. split; [exact Hin|].
      intros x [<-|Hx]; [exact Hle | now apply Hall].
    + apply IH. exact Hpos.
Qed.

End DistanceProperties.

Section SetFaceDistance.

Context {C : Collaborators}.

Lemma Marker_Embeddings_same (m m' : Marker) :
  EmbeddingsJSON m' = EmbeddingsJSON m -> embeddings m' = embeddings m ->
  fst (Marker_Embeddings m') = fst (Marker_Embeddings m).
Proof.
  intros Hj He. unfold Marker_Embeddings. rewrite Hj, He.
  destruct (List.length (EmbeddingsJSON m) =? 0)%nat; [reflexivity|].
  destruct (0 <? List.length (embeddings m))%nat; [reflexivity|].
  now destruct (json_Unmarshal _ _).
Qed.

Lemma SetFace_adopt_face (m : Marker) (f : Face) (w : World) :
  face_ID (fst (fst (SetFace_adopt m f w))) = face_ID f /\
  face_Embedding (fst (fst (SetFace_adopt m f w))) = face_Embedding f.
Proof.
  unfold SetFace_adopt.
  destruct (negb (face_SubjectUID f =? "") || (SubjectUID m =? "")); [split; reflexivity|].
  rewrite lift_eq. unfold Face_Update_SubjectUID.
  destruct (db_update_faces _ _ _). split; reflexivity.
Qed.

(** The distance [SetFace] leaves once it assigns the face: the one given,
    or the smallest one found when the one given is negative. *)
Lemma SetFace_assign_distance (m : Marker) (f : Face) (d : float64) (w : World) :
  FaceDist (result_marker (SetFace_assign m f d w)) =
  if SFltb d F64.zero
  then smallest_distance (face_Embedding f) (fst (Marker_Embeddings m)) d
  else d.
Proof.
  unfold SetFace_assign, result_marker. cbv zeta.
  match goal with
  | |- context [SyncSubject ?x false] => set (mc := x)
  end.
  assert (Hc : FaceDist mc =
               if SFltb d F64.zero
               then smallest_distance (face_Embedding f) (fst (Marker_Embeddings m)) d
               else d).
  { subst mc. cbn [FaceDist set_FaceDist].
    assert (Hb : forall mb, FaceDist (if negb (face_SubjectUID f =? "")
                                  then set_SubjectUID (face_SubjectUID f) mb else mb)
                        = FaceDist mb)
      by (intros mb; destruct (negb (face_SubjectUID f =? "")); reflexivity).
    rewrite Hb. destruct (SFltb d F64.zero); [|reflexivity].
    set (ma := set_FaceDist d (set_FaceID (face_ID f) m)).
    pose proof (Marker_Embeddings_frame ma) as (Hframe & _).
    pose proof (Marker_Embeddings_same m ma eq_refl eq_refl) as Hsame.
    destruct (Marker_Embeddings ma) as [embs m']. cbn in *.
    rewrite <- Hsame. f_equal. injection Hframe. intros. assumption. }
  unfold bind.
  pose proof (SyncSubject_frame mc false w) as Hf.
  destruct (SyncSubject mc false w) as [[m4 err] w4]. cbn [fst snd] in Hf.
  assert (H4 : FaceDist m4 = FaceDist mc) by (injection Hf; intros; assumption).
  destruct err as [e|]; [cbn; congruence|].
  match goal with
  | |- context [(if ?b then ret (f, None) else ?k) w4] =>
    destruct ((if b then ret (f, None) else k) w4) as [[f' [e|]] w5]
  end; [cbn; congruence|].
  unfold TimePointer.
  match goal with
  | |- context [Updates ?m1 ?vs w5] =>
    destruct (Updates_written m1 vs w5) as (err & w' & Hup & _); rewrite Hup
  end.
  cbn. congruence.
Qed.

(** C5, as the code has it.  For a face marker and a distance function that
    returns numbers that are not negative, [SetFace] with the distance -1
    leaves this [FaceDist]: when it goes on to assign the face, the
    minimum of the distances between the face's reference embedding and the
    marker embeddings of the same length, the others being skipped, and -1
    when the marker has no embedding of that length; the marker's previous
    [FaceDist] when it stops before: on a subject conflict, when the face
    could not adopt the marker's subject, or when the same face with the
    same subject is already set. *)
Theorem C5_setface_distance (m : Marker) (f : Face) (w : World) :
  MarkerType m = MarkerFace ->
  let ds := matching_distances (face_Embedding f) (fst (Marker_Embeddings m)) in
  (forall d, In d ds -> SFleb F64.zero d = true) ->
  let m' := result_marker (SetFace m (Some f) F64.minus_one w) in
  if no_conflict m f then
    match SetFace_adopt m f w with
    | ((_, Some _), _) => FaceDist m' = FaceDist m
    | ((f1, None), _) =>
      if same_face m f1 then FaceDist m' = FaceDist m
      else match ds with
           | [] => FaceDist m' = F64.minus_one
           | _ :: _ => is_minimum (FaceDist m') ds
           end
    end
  else FaceDist m' = FaceDist m.
Proof.
  intros Htype ds Hpos m'. subst m'. unfold SetFace, result_marker.
  apply String.eqb_eq in Htype. rewrite Htype. cbn [negb].
  destruct (no_conflict m f).
  - unfold SetFace_match, bind.
    pose proof (SetFace_adopt_face m f w) as (_ & Hemb).
    destruct (SetFace_adopt m f w) as [[f1 [e|]] w1]; [reflexivity|].
    cbn [fst] in Hemb.
    destruct (same_face m f1).
    + unfold TimePointer.
      match goal with
      | |- context [Updates ?m1 ?vs w1] =>
        destruct (Updates_written m1 vs w1) as (err & w' & Hup & _); rewrite Hup
      end.
      reflexivity.
    + pose proof (SetFace_assign_distance m f1 F64.minus_one w1) as Hd.
      unfold result_marker in Hd. rewrite Hd, Hemb.
      replace (SFltb F64.minus_one F64.zero) with true by reflexivity.
      exact (smallest_distance_unset (face_Embedding f) (fst (Marker_Embeddings m)) Hpos).
  - pose proof (Marker_Embeddings_frame m) as (Hframe & _).
    destruct (Marker_Embeddings m) as [emb m1]. cbn [snd] in Hframe.
    assert (Hm1 : FaceDist m1 = FaceDist m) by (injection Hframe; intros; assumption).
    unfold bind, call_ReportCollision.
    destruct (ReportCollision f emb (store w)) as [[reported [e|]] s1]; cbn;
      [exact Hm1 | destruct reported; exact Hm1].
Qed.

End SetFaceDistance.

Lemma C5_setface_distance_witness :
  is_minimum
    (FaceDist (result_marker (SetFace (C := Reference.collaborators)
                                Reference.marker_unmatched (Some Reference.face_alice)
                                F64.minus_one (Reference.world_of Reference.store1))))
    [Reference.five64].
Proof.
  refine (C5_setface_distance (C := Reference.collaborators) Reference.marker_unmatched
            Reference.face_alice (Reference.world_of Reference.store1) _ _).
  - reflexivity.
  - intros d [<-|[]]. vm_compute. reflexivity.
Defined.

(** C5 as stated fails where [SetFace] stops before the assignment.
    Marker 1 is matched to the face F1 at the distance 1/2 and carries the
    same subject as the face; its one embedding (3, 4) is at the distance 5
    from the face's reference embedding (0, 0).  [SetFace] with the
    distance -1 leaves [FaceDist] at 1/2, which is not the minimum. *)
Lemma C5_same_face_keeps_distance :
  MarkerType Reference.marker_alice = MarkerFace /\
  matching_distances (C := Reference.collaborators)
    (face_Embedding Reference.face_alice)
    (fst (Marker_Embeddings (C := Reference.collaborators) Reference.marker_alice)) =
  [Reference.five64] /\
  FaceDist (result_marker (SetFace (C := Reference.collaborators) Reference.marker_alice
                             (Some Reference.face_alice) F64.minus_one
                             (Reference.world_of Reference.store1))) = Reference.half64 /\
  ~ is_minimum Reference.half64 [Reference.five64].
Proof.
  repeat split; try (vm_compute; reflexivity).
  intros ([H|[]] & _). discriminate H.
Qed.

(** ** Subject synchronization: [SyncSubject] *)

Lemma db_fault_none (s : Store) : faults s = [] -> db_fault s = (None, s).
Proof. unfold db_fault. now intros ->. Qed.

Section PropagationProperties.

Context {C : Collaborators}.

Lemma GetSubject_known (m : Marker) (w : World) :
  SubjectUID m <> "" ->
  snd (fst (GetSubject m w)) =
  set_SubjectRef (SubjectRef (snd (fst (GetSubject m w)))) m.
Proof.
  intros Huid. apply String.eqb_neq in Huid. unfold GetSubject.
  destruct (SubjectRef m) as [subj|] eqn:Href.
  - cbn. rewrite Href. destruct m; cbn in *. now subst.
  - rewrite Huid. cbn [andb]. unfold bind. rewrite lift_eq. reflexivity.
Qed.

Lemma SyncSubject_name_object (subj : Subject) (m : Marker) (w : World) :
  fst (fst (SyncSubject_name subj m w)) =
  set_SubjectRef (SubjectRef (fst (fst (SyncSubject_name subj m w)))) m.
Proof.
  unfold SyncSubject_name, alias_subject, bind.
  destruct ((MarkerName m =? "") || (subj_SubjectName subj =? MarkerName m)
            || (negb (subj_SubjectName subj =? "") && negb (SubjectSrc m =? SrcManual))).
  - cbn. now destruct m.
  - rewrite lift_eq. destruct (UpdateName subj (MarkerName m) (store w)) as [[subj' err] s'].
    cbn. destruct (SubjectRef m) eqn:Href; cbn; [reflexivity|].
    rewrite Href. destruct m; cbn in *. now subst.
Qed.

(** C6, as the code has it.  Take a face marker with a face id and a subject
    id whose subject resolves, cached or found by its id, and whose name
    step raises no error, and let no storage call fail.  Then one
    [SyncSubject] pass gives the marker's subject to the rows of its face
    that have none, and, when called to update the related markers, gives
    the marker's subject, with the automatic tag, to every other marker row
    of the same face whose subject was set automatically and differs; every
    other row is as it was, and without that flag no marker row changes. *)
Theorem C6_syncsubject_propagates (m : Marker) (updateRelated : bool) (w : World)
  (subj : Subject) (m1 m2 : Marker) (w1 w2 : World) :
  MarkerType m = MarkerFace ->
  FaceID m <> "" ->
  SubjectUID m <> "" ->
  GetSubject m w = ((Some subj, m1), w1) ->
  SyncSubject_name subj m1 w1 = ((m2, None), w2) ->
  faults (store w2) = [] ->
  exists w',
    SyncSubject m updateRelated w = ((m2, None), w') /\
    m2 = set_SubjectRef (SubjectRef m2) m /\
    calls w' = calls w2 /\
    faces (store w') =
      map (fun f => if (face_ID f =? FaceID m) && (face_SubjectUID f =? "")
                    then set_face_SubjectUID (SubjectUID m) f
                    else f)
          (faces (store w2)) /\
    markers (store w') =
      if updateRelated
      then map (fun r => if negb (ID r =? ID m)%N && (FaceID r =? FaceID m)
                            && (SubjectSrc r =? SrcAuto)
                            && negb (SubjectUID r =? SubjectUID m)
                         then set_SubjectSrc SrcAuto (set_SubjectUID (SubjectUID m) r)
                         else r)
               (markers (store w2))
      else markers (store w2).
Proof.
  intros Htype Hface Huid Hget Hname Hfaults.
  assert (Hm2 : m2 = set_SubjectRef (SubjectRef m2) m).
  { pose proof (GetSubject_known m w Huid) as H1. rewrite Hget in H1. cbn in H1.
    pose proof (SyncSubject_name_object subj m1 w1) as H2. rewrite Hname in H2. cbn in H2.
    rewrite H2 at 1. rewrite H1. reflexivity. }
  apply String.eqb_eq in Htype. apply String.eqb_neq in Hface, Huid.
  unfold SyncSubject. rewrite Htype. cbn [negb].
  unfold bind at 1. rewrite Hget. unfold bind at 1. rewrite Hname.
  unfold bind at 1.
  assert (Hf2 : (FaceID m2 =? "") = false) by (rewrite Hm2; exact Hface).
  assert (Hu2 : (SubjectUID m2 =? "") = false) by (rewrite Hm2; exact Huid).
  unfold SyncSubject_face. rewrite Hf2. cbn [negb orb]. unfold ret at 1.
  unfold SyncSubject_related. rewrite Hf2, Hu2. cbn [orb].
  unfold bind at 1. rewrite lift_eq. unfold db_update_faces at 1 2.
  rewrite (db_fault_none _ Hfaults). cbn [fst snd].
  destruct updateRelated; cbn [negb].
  - unfold bind. rewrite lift_eq. cbn [store calls]. unfold db_update_markers.
    rewrite db_fault_none by exact Hfaults. cbn [fst snd].
    eexists. split; [reflexivity|]. split; [exact Hm2|].
    cbn [store calls markers faces set_markers set_faces].
    rewrite Hm2. repeat split.
  - eexists. split; [reflexivity|]. split; [exact Hm2|].
    cbn [store calls markers faces set_markers set_faces].
    rewrite Hm2. repeat split.
Qed.

End PropagationProperties.

Lemma C6_syncsubject_propagates_witness :
  exists w',
    SyncSubject (C := Reference.collaborators) Reference.marker_alice true
      (Reference.world_of Reference.store1) = ((Reference.marker_alice, None), w') /\
    Reference.marker_alice =
      set_SubjectRef (SubjectRef Reference.marker_alice) Reference.marker_alice /\
    calls w' = [] /\
    faces (store w') = [set_face_SubjectUID "S-alice" Reference.face1; Reference.face_bob] /\
    markers (store w') =
      [row_of Reference.marker_alice;
       set_SubjectSrc "" (set_SubjectUID "S-alice" Reference.marker_auto);
       Reference.marker_manual].
Proof.
  refine (C6_syncsubject_propagates (C := Reference.collaborators) Reference.marker_alice
            true (Reference.world_of Reference.store1) Reference.alice
            Reference.marker_alice Reference.marker_alice
            (Reference.world_of Reference.store1) (Reference.world_of Reference.store1)
            _ _ _ _ _ _);
    (reflexivity || (vm_compute; discriminate)).
Defined.

(** C6 as stated fails in two ways.  Called without the flag to update the
    related markers, as [SetFace] calls it, [SyncSubject] on marker 1 gives
    the face F1 the subject and leaves marker 2, a marker of the same face
    with an automatic and different subject, as it was.  And on a marker
    whose subject id is not in the subject table, [SyncSubject] with the
    flag returns without touching the face or the markers. *)
Lemma C6_related_markers_not_updated :
  (let r := SyncSubject (C := Reference.collaborators) Reference.marker_alice false
              (Reference.world_of Reference.store1) in
   snd (fst r) = None /\
   faces (store (snd r)) =
     [set_face_SubjectUID "S-alice" Reference.face1; Reference.face_bob] /\
   markers (store (snd r)) = markers Reference.store1 /\
   In Reference.marker_auto (markers (store (snd r))) /\
   related (C := Reference.collaborators) Reference.marker_alice Reference.marker_auto
     = true) /\
  (let r := SyncSubject (C := Reference.collaborators) Reference.marker_carol true
              (Reference.world_of Reference.store1) in
   MarkerType Reference.marker_carol = MarkerFace /\
   FaceID Reference.marker_carol = "F1" /\
   SubjectUID Reference.marker_carol = "S-carol" /\
   snd (fst r) = None /\
   faces (store (snd r)) = faces Reference.store1 /\
   markers (store (snd r)) = markers Reference.store1).
Proof.
  split; cbn zeta; repeat split; try (vm_compute; reflexivity).
  vm_compute. right. left. reflexivity.
Qed.

(** ** More on [SetFace] and [HasFace] *)

Lemma set_face_SubjectUID_same (f : Face) :
  set_face_SubjectUID (face_SubjectUID f) f = f.
Proof. now destruct f. Qed.

Section SetFaceMore.

Context {C : Collaborators}.

Lemma GetSubject_keeps_face (m : Marker) (w : World) :
  FaceID (snd (fst (GetSubject m w))) = FaceID m.
Proof.
  unfold GetSubject, bind, ret; rewrite ?lift_eq; cbn [fst snd];
    repeat (match goal with
            | |- context [match ?x with _ => _ end] => destruct x eqn:?
            end; rewrite ?lift_eq; cbn [fst snd]); reflexivity.
Qed.

Lemma GetSubject_keeps_subject (m : Marker) (w : World) :
  SubjectUID m <> "" -> SubjectUID (snd (fst (GetSubject m w))) = SubjectUID m.
Proof.
  intros H. rewrite (GetSubject_known m w H). reflexivity.
Qed.

Lemma SyncSubject_name_keeps (subj : Subject) (m : Marker) (w : World) :
  FaceID (fst (fst (SyncSubject_name subj m w))) = FaceID m /\
  SubjectUID (fst (fst (SyncSubject_name subj m w))) = SubjectUID m.
Proof. rewrite SyncSubject_name_object. split; reflexivity. Qed.

(** A marker that has a face keeps it through [SyncSubject], and one that
    has a subject keeps that too. *)
Lemma SyncSubject_keeps_face (m : Marker) (b : bool) (w : World) :
  FaceID m <> "" ->
  FaceID (fst (fst (SyncSubject m b w))) = FaceID m /\
  (SubjectUID m <> "" -> SubjectUID (fst (fst (SyncSubject m b w))) = SubjectUID m).
Proof.
  intros Hface. unfold SyncSubject, bind.
  destruct (negb (MarkerType m =? MarkerFace)); [split; reflexivity|].
  pose proof (GetSubject_keeps_face m w) as H1.
  pose proof (GetSubject_keeps_subject m w) as H1'.
  destruct (GetSubject m w) as [[subj m1] w1]. cbn [fst snd] in H1, H1'.
  destruct subj as [subj|]; [|cbn; split; assumption].
  pose proof (SyncSubject_name_keeps subj m1 w1) as (H2 & H2').
  destruct (SyncSubject_name subj m1 w1) as [[m2 err] w2]. cbn [fst snd] in H2, H2'.
  destruct err as [e|].
  - cbn. split; [congruence | intros Hs; rewrite H2'; auto].
  - assert (Hskip : SyncSubject_face m2 w2 = (m2, w2)).
    { unfold SyncSubject_face.
      assert (Hf : (FaceID m2 =? "") = false) by (apply String.eqb_neq; congruence).
      now rewrite Hf. }
    rewrite Hskip, SyncSubject_related_object.
    split; [congruence | intros Hs; rewrite H2'; auto].
Qed.

(** What [SetFace] leaves when it assigns the face: the distance is dealt
    with in [SetFace_assign_distance]; here the face id, the subject, the
    face object and the [updated] flag. *)
Lemma SetFace_assign_identity (m : Marker) (f : Face) (d : float64) (w : World) :
  face_ID f <> "" ->
  let r := SetFace_assign m f d w in
  (snd (fst (fst r)) = true ->
   FaceID (result_marker r) = face_ID f /\
   (face_SubjectUID f <> "" -> SubjectUID (result_marker r) = face_SubjectUID f)) /\
  (face_SubjectUID f <> "" -> snd (fst (fst (fst r))) = Some f).
Proof.
  intros Hid. unfold SetFace_assign, result_marker. cbv zeta.
  match goal with
  | |- context [SyncSubject ?x false] => set (mc := x)
  end.
  assert (Hfc : FaceID mc = face_ID f).
  { subst mc. destruct (negb (face_SubjectUID f =? "")); cbn;
      destruct (SFltb d F64.zero); try reflexivity;
      pose proof (Marker_Embeddings_frame (set_FaceDist d (set_FaceID (face_ID f) m)))
        as (_ & _ & _ & H);
      destruct (Marker_Embeddings _); exact H. }
  assert (Hsc : face_SubjectUID f <> "" -> SubjectUID mc = face_SubjectUID f).
  { intros Hs. apply String.eqb_neq in Hs. subst mc. rewrite Hs. reflexivity. }
  unfold bind.
  destruct (SyncSubject_keeps_face mc false w) as (H4 & H4'); [congruence|].
  destruct (SyncSubject mc false w) as [[m4 err] w4]. cbn [fst snd] in H4, H4'.
  destruct err as [e|]; [cbn; split; [discriminate | reflexivity]|].
  destruct ((SubjectUID m4 =? "") || negb (face_SubjectUID f =? SubjectUID m4)) eqn:Hcond.
  - change (ret (f, @None error) w4) with ((f, @None error), w4). unfold TimePointer.
    match goal with
    | |- context [Updates ?m1 ?vs w4] =>
      destruct (Updates_written m1 vs w4) as (err & w' & Hup & _); rewrite Hup
    end.
    cbn. split; [|reflexivity]. intros _. split; [congruence|].
    intros Hs. rewrite H4'; [auto | rewrite Hsc; auto].
  - apply orb_false_iff in Hcond. destruct Hcond as (_ & Heq).
    apply negb_false_iff, String.eqb_eq in Heq.
    rewrite lift_eq. unfold Face_Update_SubjectUID.
    destruct (db_update_faces _ _ (store w4)) as [[e|] s5]; cbn [fst snd].
    + cbn. split; [discriminate|]. intros _. now rewrite <- Heq, set_face_SubjectUID_same.
    + unfold TimePointer.
      match goal with
      | |- context [Updates ?m1 ?vs ?w5] =>
        destruct (Updates_written m1 vs w5) as (err & w' & Hup & _); rewrite Hup
      end.
      cbn. split.
      * intros _. split; [congruence|]. intros Hs. rewrite H4'; [auto | rewrite Hsc; auto].
      * intros _. now rewrite <- Heq, set_face_SubjectUID_same.
Qed.

(** X1. [SetFace] checks its arguments first: without a face it fails with
    "face is nil", and with a face on a marker that is not a face marker it
    fails with "not a face marker"; in both cases [updated] is false and the
    marker, the storage and the call record are as they were.  The face is
    checked before the marker's type. *)
Theorem SetFace_rejects (m : Marker) (f : Face) (d : float64) (w : World) :
  SetFace m None d w = ((m, None, false, Some (Errorf "face is nil")), w) /\
  (MarkerType m <> MarkerFace ->
   SetFace m (Some f) d w =
   ((m, Some f, false, Some (Errorf "not a face marker")), w)).
Proof.
  split; [reflexivity|].
  intros H. apply String.eqb_neq in H. unfold SetFace. now rewrite H.
Qed.

(** X2. When [SetFace] with a face that has an id reports [updated = true],
    the marker carries that face's id, and [HasFace] then answers true for
    that face at every distance. *)
Theorem SetFace_updated_has_face (m : Marker) (f : Face) (d : float64) (w : World) :
  face_ID f <> "" ->
  let r := SetFace m (Some f) d w in
  snd (fst (fst r)) = true ->
  FaceID (result_marker r) = face_ID f /\
  forall d', HasFace (result_marker r) (Some f) d' = true.
Proof.
  intros Hid r Hupd.
  assert (Hface : FaceID (result_marker r) = face_ID f).
  { subst r. revert Hupd. unfold SetFace, result_marker.
    destruct (negb (MarkerType m =? MarkerFace)); [discriminate|].
    destruct (no_conflict m f).
    - unfold SetFace_match, bind.
      pose proof (SetFace_adopt_face m f w) as (Hfid & _).
      destruct (SetFace_adopt m f w) as [[f1 [e|]] w1]; [discriminate|].
      cbn [fst] in Hfid.
      destruct (same_face m f1).
      + unfold TimePointer.
        match goal with
        | |- context [Updates ?m1 ?vs w1] =>
          destruct (Updates_written m1 vs w1) as (err & w' & Hup & _); rewrite Hup
        end.
        discriminate.
      + intros Hupd. rewrite <- Hfid.
        apply (SetFace_assign_identity m f1 d w1); [congruence | exact Hupd].
    - destruct (Marker_Embeddings m) as [emb m1].
      unfold bind, call_ReportCollision.
      destruct (ReportCollision f emb (store w)) as [[reported [e|]] s1]; cbn;
        [discriminate | destruct reported; discriminate]. }
  split; [exact Hface|].
  intros d'. unfold HasFace. rewrite Hface.
  apply String.eqb_neq in Hid. rewrite Hid, String.eqb_refl. reflexivity.
Qed.


(** X4. A distance that is not negative is stored as it is given: when
    [SetFace] assigns the face, [FaceDist] is the distance passed in and the
    embeddings play no part; when it stops before, [FaceDist] is as it was. *)
Theorem SetFace_explicit_distance (m : Marker) (f : Face) (d : float64) (w : World) :
  MarkerType m = MarkerFace ->
  SFltb d F64.zero = false ->
  let m' := result_marker (SetFace m (Some f) d w) in
  if no_conflict m f then
    match SetFace_adopt m f w with
    | ((_, Some _), _) => FaceDist m' = FaceDist m
    | ((f1, None), _) => if same_face m f1 then FaceDist m' = FaceDist m else FaceDist m' = d
    end
  else FaceDist m' = FaceDist m.
Proof.
  intros Htype Hd m'. subst m'. unfold SetFace, result_marker.
  apply String.eqb_eq in Htype. rewrite Htype. cbn [negb].
  destruct (no_conflict m f).
  - unfold SetFace_match, bind.
    destruct (SetFace_adopt m f w) as [[f1 [e|]] w1]; [reflexivity|].
    destruct (same_face m f1).
    + unfold TimePointer.
      match goal with
      | |- context [Updates ?m1 ?vs w1] =>
        destruct (Updates_written m1 vs w1) as (err & w' & Hup & _); rewrite Hup
      end.
      reflexivity.
    + pose proof (SetFace_assign_distance m f1 d w1) as H.
      unfold result_marker in H. now rewrite H, Hd.
  - pose proof (Marker_Embeddings_frame m) as (Hframe & _).
    destruct (Marker_Embeddings m) as [emb m1]. cbn [snd] in Hframe.
    assert (Hm1 : FaceDist m1 = FaceDist m) by (injection Hframe; intros; assumption).
    unfold bind, call_ReportCollision.
    destruct (ReportCollision f emb (store w)) as [[reported [e|]] s1]; cbn;
      [exact Hm1 | destruct reported; exact Hm1].
Qed.

End SetFaceMore.

(** ** More on the embeddings, [HasFace], [GetFace] and the clearing operations *)

Section ObjectProperties.

Context {C : Collaborators}.

(** X5. [Embeddings()] settles after one call: a second call returns the
    same embeddings and leaves the object as the first call left it.  With
    an empty payload it returns no embeddings, even when parsed embeddings
    are kept on the object. *)
Theorem Embeddings_idempotent (m : Marker) :
  Marker_Embeddings (snd (Marker_Embeddings m)) =
  (fst (Marker_Embeddings m), snd (Marker_Embeddings m)) /\
  (EmbeddingsJSON m = [] -> Marker_Embeddings m = ([], m)).
Proof.
  split.
  - unfold Marker_Embeddings at 2 3 4.
    destruct (List.length (EmbeddingsJSON m) =? 0)%nat eqn:Hj.
    + cbn [fst snd]. unfold Marker_Embeddings. now rewrite Hj.
    + destruct (0 <? List.length (embeddings m))%nat eqn:He.
      * cbn [fst snd]. unfold Marker_Embeddings. now rewrite Hj, He.
      * destruct (json_Unmarshal (EmbeddingsJSON m) (embeddings m)) as [e err] eqn:Hu.
        cbn [fst snd]. unfold Marker_Embeddings.
        cbn [EmbeddingsJSON embeddings set_embeddings]. rewrite Hj.
        destruct (0 <? List.length e)%nat eqn:He'; [reflexivity|].
        assert (Hnil : embeddings m = []).
        { apply Nat.ltb_ge in He. destruct (embeddings m); [reflexivity | cbn in He; lia]. }
        assert (Hnil' : e = []).
        { apply Nat.ltb_ge in He'. destruct e; [reflexivity | cbn in He'; lia]. }
        rewrite Hnil in Hu. subst e. rewrite Hu. reflexivity.
  - intros H. unfold Marker_Embeddings. now rewrite H.
Qed.

(** X6. Among distances that are not negative, [HasFace] is monotone in the
    distance offered: a marker whose face is at least as good as one at the
    distance [d] also has one at least as good as any farther distance. *)
Theorem HasFace_monotone (m : Marker) (f : option Face) (d d' : float64) :
  SFltb d F64.zero = false ->
  SFleb d d' = true ->
  HasFace m f d = true ->
  HasFace m f d' = true.
Proof.
  intros Hd Hle. unfold HasFace.
  destruct (FaceID m =? ""); [discriminate|].
  destruct f as [f|]; [|trivial].
  destruct (FaceID m =? face_ID f); [trivial|].
  destruct (SFltb (FaceDist m) F64.zero); [discriminate|].
  rewrite Hd. intros H.
  destruct (SFltb d' F64.zero); [reflexivity|].
  exact (SFleb_trans _ _ _ H Hle).
Qed.

(** X7. A marker with a manual subject, no face id and no face object whose
    size or score is below the clustering threshold gets no face:
    [GetFace] returns none, creates nothing and leaves the marker and the
    state as they were. *)
Theorem GetFace_low_quality (m : Marker) (w : World) :
  FaceRef m = None ->
  FaceID m = "" ->
  SubjectSrc m = SrcManual ->
  Size m < ClusterMinSize \/ Score m < ClusterMinScore ->
  GetFace m w = ((None, m), w).
Proof.
  intros Href Hface Hsrc Hlow. unfold GetFace. rewrite Href.
  apply String.eqb_eq in Hface, Hsrc. rewrite Hface, Hsrc. cbn [andb].
  assert (H : (Size m <? ClusterMinSize)%Z || (Score m <? ClusterMinScore)%Z = true).
  { apply orb_true_iff. destruct Hlow; [left | right]; now apply Z.ltb_lt. }
  now rewrite H.
Qed.

Lemma Matched_result (m : Marker) (w : World) :
  exists err w',
    Matched m w = ((set_MatchedAt (Some (clock (store w))) m, err), w') /\
    calls w' = calls w.
Proof.
  unfold Matched, bind, TimePointer.
  destruct (Updates_written (set_MatchedAt (Some (clock (store w))) m)
              [Col_MatchedAt (Some (clock (store w)))] w)
    as (err & w' & Hup & Hcalls & _).
  exists err, w'. split; [exact Hup | exact Hcalls].
Qed.

(** X8. After [ClearFace] the marker has no face id, whatever the storage
    call returned, so [HasFace] answers false for every face and distance;
    and a second [ClearFace] reports [updated = false] and only sets
    [MatchedAt]. *)
Theorem ClearFace_twice (m : Marker) (w : World) :
  let r1 := ClearFace m w in
  let m1 := fst (fst (fst r1)) in
  let r2 := ClearFace m1 (snd r1) in
  FaceID m1 = "" /\
  (forall f d, HasFace m1 f d = false) /\
  snd (fst (fst r2)) = false /\
  fst (fst (fst r2)) = set_MatchedAt (Some (clock (store (snd r1)))) m1.
Proof.
  intros r1 m1 r2.
  assert (Hface : FaceID m1 = "").
  { subst m1 r1. unfold ClearFace.
    destruct (FaceID m =? "") eqn:Hf.
    - apply String.eqb_eq in Hf. unfold bind.
      destruct (Matched_result m w) as (err & w' & Hrun & _). rewrite Hrun.
      cbn. exact Hf.
    - unfold bind, TimePointer.
      destruct (SubjectSrc _ =? SrcAuto);
        match goal with
        | |- context [Updates ?m0 ?vs w] =>
          destruct (Updates_written m0 vs w) as (err & w' & Hup & _); rewrite Hup
        end; reflexivity. }
  split; [exact Hface|]. split.
  - intros f d. unfold HasFace. now rewrite Hface.
  - subst r2. unfold ClearFace. rewrite Hface. cbn [String.eqb]. unfold bind.
    destruct (Matched_result m1 (snd r1)) as (err & w' & Hrun & _). rewrite Hrun.
    split; reflexivity.
Qed.

(** X9. When [ClearSubject] returns no error, the marker object has no name,
    no face id, no face object, the distance -1, no subject, and the
    subject source passed in; and at most one collision was reported. *)
Theorem ClearSubject_cleared (m : Marker) (src : string) (w : World) :
  snd (fst (ClearSubject m src w)) = None ->
  let m' := fst (fst (ClearSubject m src w)) in
  let w' := snd (ClearSubject m src w) in
  MarkerName m' = "" /\ FaceID m' = "" /\ FaceRef m' = None /\
  FaceDist m' = F64.minus_one /\ SubjectUID m' = "" /\ SubjectSrc m' = src /\
  (calls w' = calls w \/ exists f e, calls w' = (calls w ++ [CallReportCollision f e])%list).
Proof.
  pose proof (ClearSubject_cases m src w) as H. cbv zeta in H.
  destruct (fst (match FaceRef m with
                 | Some f => (Some f, store w)
                 | None => FindFace (FaceID m) (store w)
                 end)) as [f|].
  - destruct (snd (fst (ReportCollision f _ _))) as [e|].
    + rewrite H. cbn. discriminate.
    + destruct H as (err & w1 & _ & Hcalls & Hrun). rewrite Hrun. cbn [fst snd].
      intros ->. cbn. repeat split. right. cbn in Hcalls. eauto.
  - rewrite H. cbn. intros _. repeat split. now left.
Qed.

End ObjectProperties.

(** ** More on storing and ingesting markers *)

Lemma has_id_next_id (rows : list Marker) : has_id (next_id rows) rows = false.
Proof.
  assert (Hmax : forall r, In r rows -> (ID r <= fold_right N.max 0 (map ID rows))%N).
  { induction rows as [|x rest IH]; intros r Hin; [destruct Hin|].
    destruct Hin as [<-|Hin]; cbn.
    - apply N.le_max_l.
    - etransitivity; [apply IH, Hin | apply N.le_max_r]. }
  unfold has_id, next_id.
  destruct (existsb _ rows) eqn:E; [|reflexivity].
  apply existsb_exists in E. destruct E as (r & Hin & Heq).
  apply N.eqb_eq in Heq. specialize (Hmax r Hin). lia.
Qed.



Lemma find_insert_row_new (p : Marker -> bool) (r : Marker) (rows : list Marker) :
  find p rows = None -> p r = true -> find p (insert_row r rows) = Some r.
Proof.
  intros Hnone Hr. induction rows as [|x rest IH]; cbn in *.
  - now rewrite Hr.
  - destruct (p x) eqn:Hx; [discriminate|].
    destruct (ID r <? ID x)%N; cbn.
    + now rewrite Hr.
    + rewrite Hx. now apply IH.
Qed.

Lemma length_insert_row (r : Marker) (rows : list Marker) :
  List.length (insert_row r rows) = S (List.length rows).
Proof.
  induction rows as [|x rest IH]; cbn; [reflexivity|].
  destruct (ID r <? ID x)%N; cbn; [reflexivity | now rewrite IH].
Qed.

Lemma In_insert_row_inv (r x : Marker) (rows : list Marker) :
  In x (insert_row r rows) -> x = r \/ In x rows.
Proof.
  induction rows as [|y rest IH]; cbn.
  - intros [<-|[]]. now left.
  - destruct (ID r <? ID y)%N; cbn.
    + intros [<-|[<-|H]]; auto.
    + intros [<-|H]; auto. destruct (IH H); auto.
Qed.

Lemma update_rows_same (cond : Marker -> bool) (vs : Values) (rows : list Marker) :
  (forall r, In r rows -> cond r = true -> assign_all vs r = r) ->
  update_rows cond vs rows = rows.
Proof.
  intros H. unfold update_rows. induction rows as [|x rest IH]; cbn; [reflexivity|].
  rewrite IH by (intros r Hr; apply H; now right).
  destruct (cond x) eqn:Hx; [|reflexivity].
  now rewrite (H x (or_introl eq_refl) Hx).
Qed.

Lemma In_update_rows (cond : Marker -> bool) (vs : Values) (rows : list Marker)
  (r' : Marker) :
  In r' (update_rows cond vs rows) ->
  exists r, In r rows /\ r' = if cond r then assign_all vs r else r.
Proof.
  unfold update_rows. intros H. apply in_map_iff in H.
  destruct H as (r & Heq & Hin). now exists r.
Qed.

Lemma ID_assign_all (vs : Values) (m : Marker) : ID (assign_all vs m) = ID m.
Proof.
  unfold assign_all. revert m. induction vs as [|c rest IH]; intros m; [reflexivity|].
  cbn. rewrite IH. now destruct c.
Qed.

Section IngestMore.

Context {C : Collaborators}.


(** X11. Ingesting the same candidate twice leaves one marker.  Take a
    candidate without id, with a valid position that lies within the
    tolerance of itself, on a storage that does not fail and holds no
    near-duplicate.  The first [UpdateOrCreateMarker] inserts it; the second
    finds the row just inserted, returns it, and leaves the table as it is,
    one row longer than at the start. *)
Theorem UpdateOrCreateMarker_twice (m : Marker) (w : World) :
  ID m = 0%N ->
  invalid_position m = false ->
  faults (store w) = [] ->
  find (near_duplicate m) (markers (store w)) = None ->
  near_duplicate m m = true ->
  let r1 := UpdateOrCreateMarker m w in
  let r2 := UpdateOrCreateMarker m (snd r1) in
  snd (fst r1) = None /\
  snd (fst r2) = None /\
  fst (fst r2) = row_of (fst (fst r1)) /\
  markers (store (snd r2)) = markers (store (snd r1)) /\
  List.length (markers (store (snd r2))) = S (List.length (markers (store w))).
Proof.
  intros Hid Hpos Hfaults Hnone Hself r1 r2.
  set (i := next_id (markers (store w))).
  set (rows1 := insert_row (row_of (set_ID i m)) (markers (store w))).
  set (w1 := {| store := set_markers rows1 (store w); calls := calls w |}).
  assert (Hfresh : has_id i (markers (store w)) = false) by apply has_id_next_id.
  assert (H1 : r1 = ((set_ID i m, None), w1)).
  { subst r1. unfold UpdateOrCreateMarker. rewrite Hid. cbn [N.ltb N.compare].
    unfold bind. rewrite lift_eq. unfold db_First.
    rewrite (db_fault_none _ Hfaults). cbn [fst snd]. rewrite Hnone.
    unfold Create. rewrite Hpos, lift_eq. cbn [store calls]. unfold db_Create.
    rewrite (db_fault_none _ Hfaults), Hid. cbn [N.eqb].
    fold i. cbn [ID set_ID]. rewrite Hfresh. reflexivity. }
  assert (Hrow : overwrite m (row_of (set_ID i m)) = row_of (set_ID i m)) by reflexivity.
  assert (H2 : r2 = ((row_of (set_ID i m), None), w1)).
  { subst r2. rewrite H1. cbn [snd].
    unfold UpdateOrCreateMarker. rewrite Hid. cbn [N.ltb N.compare].
    unfold bind. rewrite lift_eq. unfold db_First. cbn [store calls w1].
    rewrite db_fault_none by exact Hfaults. cbn [fst snd markers set_markers].
    unfold rows1 at 1.
    rewrite (find_insert_row_new (near_duplicate m) (row_of (set_ID i m)) _ Hnone Hself).
    cbn [MarkerSrc row_of set_ID set_embeddings set_FaceRef set_SubjectRef].
    rewrite Z.ltb_irrefl.
    unfold Updates. rewrite lift_eq. unfold db_Updates. cbn [store calls].
    rewrite db_fault_none by exact Hfaults. cbn [fst snd].
    rewrite candidate_values_overwrite, Hrow.
    unfold w1. f_equal. f_equal. cbn [markers set_markers].
    assert (Hsame : update_rows (fun r => (ID r =? ID (row_of (set_ID i m)))%N)
                      (candidate_values m) rows1 = rows1).
    { apply update_rows_same. intros r Hin Hr. apply N.eqb_eq in Hr. cbn in Hr.
      destruct (In_insert_row_inv _ _ _ Hin) as [->|Hold].
      - rewrite candidate_values_overwrite. exact Hrow.
      - exfalso. unfold has_id in Hfresh.
        assert (Hex : existsb (fun x => (ID x =? i)%N) (markers (store w)) = true).
        { apply existsb_exists. exists r. split; [exact Hold | now apply N.eqb_eq]. }
        congruence. }
    rewrite Hsame. now destruct (store w). }
  rewrite H2, H1. cbn [fst snd store markers set_markers w1].
  repeat split. unfold rows1. apply length_insert_row.
Qed.

(** X12. The overwrite of a near-duplicate does not check the position: the
    marker returned and, when the write succeeds, every row with the
    existing marker's id have the candidate's X and Y, so their position is
    invalid exactly when the candidate's is. *)
Theorem UpdateOrCreateMarker_overwrite_unchecked (m existing : Marker) (w : World)
  (s1 : Store) :
  ID m = 0%N ->
  db_First (near_duplicate m) (store w) = (Some existing, s1) ->
  (SrcPriority (MarkerSrc m) <? SrcPriority (MarkerSrc existing))%Z = false ->
  exists err w',
    UpdateOrCreateMarker m w = ((overwrite m existing, err), w') /\
    invalid_position (overwrite m existing) = invalid_position m /\
    (err = None ->
     forall r, In r (markers (store w')) -> ID r = ID existing ->
               X r = X m /\ Y r = Y m /\ invalid_position r = invalid_position m).
Proof.
  intros Hid Hq Hprio.
  destruct (UpdateOrCreateMarker_overwrites m existing w s1 Hid Hq Hprio)
    as (err & w' & Hrun & _ & Hw).
  exists err, w'. split; [exact Hrun|]. split; [reflexivity|].
  intros -> r Hin Hr. destruct Hw as (_ & _ & _ & Hrows). rewrite Hrows in Hin.
  apply In_update_rows in Hin. destruct Hin as (r0 & _ & ->).
  destruct (ID r0 =? ID existing)%N eqn:E.
  - rewrite candidate_values_overwrite. repeat split.
  - apply N.eqb_neq in E. contradiction.
Qed.

(** X13. Subject synchronization and the lookups it relies on leave the
    detection alone: after [SyncSubject], [GetSubject] or [GetFace] the
    marker has the id, file, type, source, name, distance, payloads,
    geometry, size, score, validity flag and match time it had. *)
Theorem SyncSubject_leaves_detection (m : Marker) (b : bool) (w : World) :
  let kept (m' : Marker) :=
    ID m' = ID m /\ FileID m' = FileID m /\ MarkerType m' = MarkerType m /\
    MarkerSrc m' = MarkerSrc m /\ MarkerName m' = MarkerName m /\
    FaceDist m' = FaceDist m /\ EmbeddingsJSON m' = EmbeddingsJSON m /\
    LandmarksJSON m' = LandmarksJSON m /\
    X m' = X m /\ Y m' = Y m /\ W m' = W m /\ H m' = H m /\
    Size m' = Size m /\ Score m' = Score m /\ MarkerInvalid m' = MarkerInvalid m /\
    MatchedAt m' = MatchedAt m in
  kept (fst (fst (SyncSubject m b w))) /\
  kept (snd (fst (GetSubject m w))) /\
  kept (snd (fst (GetFace m w))).
Proof.
  intros kept.
  assert (H : forall m', outside_sync m' = outside_sync m -> kept m').
  { intros m' Heq. unfold outside_sync in Heq. injection Heq. intros.
    unfold kept. repeat split; assumption. }
  split; [|split]; apply H.
  - apply SyncSubject_frame.
  - apply GetSubject_frame.
  - apply GetFace_frame.
Qed.

(** X14. A storage failure in the last step of [SyncSubject] is returned
    with the step's name, and what was written before stays.  For a face
    marker with a face id and a subject that resolves: if the update of the
    face fails, the error ends in "(update known face)" and no row has
    changed; if it succeeds and the update of the related markers fails,
    the error ends in "(update related markers)", the face rows without
    subject have the marker's subject, and no marker row has changed. *)
Theorem SyncSubject_storage_failure (m : Marker) (w : World) (subj : Subject)
  (m1 m2 : Marker) (w1 w2 : World) :
  MarkerType m = MarkerFace ->
  FaceID m <> "" ->
  SubjectUID m <> "" ->
  GetSubject m w = ((Some subj, m1), w1) ->
  SyncSubject_name subj m1 w1 = ((m2, None), w2) ->
  (forall msg rest, faults (store w2) = Some msg :: rest ->
   exists w',
     SyncSubject m true w =
       ((m2, Some (Errorf (msg ++ " (update known face)"))), w') /\
     faces (store w') = faces (store w2) /\
     markers (store w') = markers (store w2)) /\
  (forall msg rest, faults (store w2) = None :: Some msg :: rest ->
   exists w',
     SyncSubject m true w =
       ((m2, Some (Errorf (msg ++ " (update related markers)"))), w') /\
     faces (store w') =
       map (fun f => if (face_ID f =? FaceID m) && (face_SubjectUID f =? "")
                     then set_face_SubjectUID (SubjectUID m) f
                     else f)
           (faces (store w2)) /\
     markers (store w') = markers (store w2)).
Proof.
  intros Htype Hface Huid Hget Hname.
  assert (Hm2 : m2 = set_SubjectRef (SubjectRef m2) m).
  { pose proof (GetSubject_known m w Huid) as H1. rewrite Hget in H1. cbn in H1.
    pose proof (SyncSubject_name_object subj m1 w1) as H2. rewrite Hname in H2. cbn in H2.
    rewrite H2 at 1. rewrite H1. reflexivity. }
  apply String.eqb_eq in Htype. apply String.eqb_neq in Hface, Huid.
  assert (Hf2 : (FaceID m2 =? "") = false) by (rewrite Hm2; exact Hface).
  assert (Hu2 : (SubjectUID m2 =? "") = false) by (rewrite Hm2; exact Huid).
  assert (Hrun : SyncSubject m true w = SyncSubject_related m2 true w2).
  { unfold SyncSubject. rewrite Htype. cbn [negb].
    unfold bind at 1. rewrite Hget. unfold bind at 1. rewrite Hname.
    unfold bind at 1. unfold SyncSubject_face. rewrite Hf2. reflexivity. }
  rewrite Hrun. unfold SyncSubject_related. rewrite Hf2, Hu2. cbn [orb negb].
  split; intros msg rest Hfaults.
  - unfold bind. rewrite lift_eq. unfold db_update_faces, db_fault. rewrite Hfaults.
    cbn [fst snd]. eexists. split; [reflexivity|]. split; reflexivity.
  - unfold bind. rewrite !lift_eq. unfold db_update_faces at 1 2, db_fault at 1 2.
    rewrite Hfaults. cbn [fst snd store calls].
    unfold db_update_markers, db_fault. cbn [faults set_faces set_faults fst snd].
    eexists. split; [reflexivity|].
    cbn [store markers faces set_faces set_faults]. rewrite Hm2. split; reflexivity.
Qed.

End IngestMore.

(** ** More on [SaveForm] *)

Section SaveFormMore.

Context {C : Collaborators}.

Lemma GetSubject_src (m : Marker) (w : World) :
  SubjectSrc (snd (fst (GetSubject m w))) = SubjectSrc m \/
  SubjectSrc (snd (fst (GetSubject m w))) = SrcManual.
Proof.
  unfold GetSubject, bind, ret; rewrite ?lift_eq; cbn [fst snd];
    repeat (match goal with
            | |- context [match ?x with _ => _ end] => destruct x eqn:?
            end; rewrite ?lift_eq; cbn [fst snd]);
    (now left) || (now right).
Qed.

Lemma GetFace_src (m : Marker) (w : World) :
  SubjectSrc (snd (fst (GetFace m w))) = SubjectSrc m.
Proof.
  unfold GetFace.
  destruct (Marker_Embeddings_frame m) as (_ & _ & He & _).
  unfold bind, ret; rewrite ?lift_eq; cbn [fst snd];
    repeat (match goal with
            | |- context [match ?x with _ => _ end] => destruct x eqn:?
            end; rewrite ?lift_eq; cbn [fst snd]);
    try reflexivity; exact He.
Qed.

Lemma SyncSubject_keeps_manual (m : Marker) (b : bool) (w : World) :
  SubjectSrc m = SrcManual ->
  SubjectSrc (fst (fst (SyncSubject m b w))) = SrcManual.
Proof.
  intros Hsrc. unfold SyncSubject, bind.
  destruct (negb (MarkerType m =? MarkerFace)); [exact Hsrc|].
  pose proof (GetSubject_src m w) as H1.
  destruct (GetSubject m w) as [[subj m1] w1]. cbn [fst snd] in H1.
  assert (H1' : SubjectSrc m1 = SrcManual) by (destruct H1; congruence).
  destruct subj as [subj|]; [|exact H1'].
  pose proof (SyncSubject_name_object subj m1 w1) as H2.
  destruct (SyncSubject_name subj m1 w1) as [[m2 err] w2]. cbn [fst snd] in H2.
  assert (H2' : SubjectSrc m2 = SrcManual) by (rewrite H2; exact H1').
  destruct err as [e|]; [exact H2'|].
  assert (H3 : SubjectSrc (fst (SyncSubject_face m2 w2)) = SrcManual).
  { unfold SyncSubject_face, bind.
    destruct (negb (FaceID m2 =? "") || negb (SubjectSrc m2 =? SrcManual)); [exact H2'|].
    pose proof (GetFace_src m2 w2) as Hf.
    destruct (GetFace m2 w2) as [[f m3] w3]. cbn [fst snd] in Hf.
    destruct f; cbn; congruence. }
  destruct (SyncSubject_face m2 w2) as [m3 w3]. cbn [fst] in H3.
  now rewrite SyncSubject_related_object.
Qed.

Lemma Save_object (m : Marker) (w : World) :
  fst (fst (Save m w)) = set_ID (ID (fst (fst (Save m w)))) m.
Proof.
  unfold Save, db_Save, ret; rewrite ?lift_eq; cbn [fst snd];
    repeat (match goal with
            | |- context [match ?x with _ => _ end] => destruct x eqn:?
            end; rewrite ?lift_eq; cbn [fst snd]);
    try reflexivity; now destruct m.
Qed.

(** X15. A name given by hand in the form is applied.  When the form's
    subject source is manual and its name is not blank, the marker leaves
    [SaveForm] with the clipped and capitalized name and the manual subject
    source, whether or not synchronizing and saving succeeded. *)
Theorem SaveForm_manual_name (m : Marker) (f : FormMarker) (w : World) :
  form_SubjectSrc f = SrcManual ->
  TrimSpace (form_MarkerName f) <> "" ->
  let m' := fst (fst (SaveForm m f w)) in
  MarkerName m' = Title (Clip (form_MarkerName f) ClipDefault) /\
  SubjectSrc m' = SrcManual.
Proof.
  intros Hsrc Hname.
  apply String.eqb_eq in Hsrc. apply String.eqb_neq in Hname.
  assert (Htail : forall m4 : Marker,
    let r := ('(m7, err) <- SyncSubject
                 (set_MarkerName (Title (Clip (form_MarkerName f) ClipDefault))
                    (set_SubjectSrc SrcManual m4)) true ;;
              match err with
              | Some e => ret (m7, Some e)
              | None => Save m7
              end) w in
    MarkerName (fst (fst r)) = Title (Clip (form_MarkerName f) ClipDefault) /\
    SubjectSrc (fst (fst r)) = SrcManual).
  { intros m4. cbn zeta. unfold bind.
    set (m6 := set_MarkerName _ (set_SubjectSrc SrcManual m4)).
    pose proof (SyncSubject_frame m6 true w) as Hf.
    pose proof (SyncSubject_keeps_manual m6 true w eq_refl) as Hs.
    destruct (SyncSubject m6 true w) as [[m7 err] w7]. cbn [fst snd] in Hf, Hs.
    assert (Hn : MarkerName m7 = Title (Clip (form_MarkerName f) ClipDefault))
      by (injection Hf; intros; assumption).
    destruct err as [e|]; [split; assumption|].
    rewrite Save_object. split; assumption. }
  cbn zeta. unfold SaveForm. rewrite Hsrc, Hname. cbn [negb andb].
  destruct (negb (Bool.eqb (MarkerInvalid m) (form_MarkerInvalid f)));
    match goal with
    | |- context [if negb (MarkerInvalid ?x) && (Score ?x <? 100)%Z then _ else _] =>
      destruct (negb (MarkerInvalid x) && (Score x <? 100)%Z)
    end; apply Htail.
Qed.

(** X16. A form that asks for nothing is a no-op.  When the form's validity
    flag is the marker's, the marker is invalid or has a score of at least
    100, and the form carries no name given by hand, [SaveForm] returns no
    error and leaves the marker and the state as they were; the position is
    not even checked. *)
Theorem SaveForm_nothing_to_do (m : Marker) (f : FormMarker) (w : World) :
  MarkerInvalid m = form_MarkerInvalid f ->
  MarkerInvalid m = true \/ 100 <= Score m ->
  form_SubjectSrc f <> SrcManual \/ TrimSpace (form_MarkerName f) = "" ->
  SaveForm m f w = ((m, None), w).
Proof.
  intros Hflag Hscore Hform. unfold SaveForm.
  assert (H1 : negb (Bool.eqb (MarkerInvalid m) (form_MarkerInvalid f)) = false).
  { rewrite Hflag. now destruct (form_MarkerInvalid f). }
  assert (H2 : negb (MarkerInvalid m) && (Score m <? 100)%Z = false).
  { destruct Hscore as [->|Hs]; [reflexivity|].
    apply Z.ltb_ge in Hs. rewrite Hs. apply andb_false_r. }
  assert (H3 : (form_SubjectSrc f =? SrcManual)
               && negb (TrimSpace (form_MarkerName f) =? "") = false).
  { destruct Hform as [H|H].
    - apply String.eqb_neq in H. now rewrite H.
    - apply String.eqb_eq in H. rewrite H. apply andb_false_r. }
  rewrite H1, H2, H3. reflexivity.
Qed.

End SaveFormMore.

Lemma SaveForm_manual_name_witness :
  let m' := fst (fst (SaveForm (C := Reference.collaborators) Reference.marker_auto
                        {| form_MarkerInvalid := false; form_SubjectSrc := "manual";
                           form_MarkerName := " Bob " |}
                        (Reference.world_of Reference.store1))) in
  MarkerName m' = " Bob " /\ SubjectSrc m' = "manual".
Proof.
  refine (SaveForm_manual_name (C := Reference.collaborators) Reference.marker_auto
            {| form_MarkerInvalid := false; form_SubjectSrc := "manual";
               form_MarkerName := " Bob " |}
            (Reference.world_of Reference.store1) _ _).
  - reflexivity.
  - vm_compute. discriminate.
Defined.

Lemma SaveForm_nothing_to_do_witness :
  SaveForm (C := Reference.collaborators) (set_Score 100 Reference.marker_edge)
    {| form_MarkerInvalid := false; form_SubjectSrc := ""; form_MarkerName := "Bob" |}
    (Reference.world_of Reference.store1) =
  ((set_Score 100 Reference.marker_edge, None), Reference.world_of Reference.store1).
Proof.
  refine (SaveForm_nothing_to_do (C := Reference.collaborators)
            (set_Score 100 Reference.marker_edge)
            {| form_MarkerInvalid := false; form_SubjectSrc := ""; form_MarkerName := "Bob" |}
            (Reference.world_of Reference.store1) _ _ _).
  - reflexivity.
  - right. vm_compute. discriminate.
  - left. vm_compute. discriminate.
Defined.

(** ** The further properties on the sample data *)

Lemma SetFace_updated_has_face_witness :
  FaceID (result_marker (SetFace (C := Reference.collaborators) Reference.marker_unmatched
                           (Some Reference.face_alice) Reference.half64
                           (Reference.world_of Reference.store1))) = "F1" /\
  forall d',
    HasFace (result_marker (SetFace (C := Reference.collaborators)
                              Reference.marker_unmatched (Some Reference.face_alice)
                              Reference.half64 (Reference.world_of Reference.store1)))
      (Some Reference.face_alice) d' = true.
Proof.
  refine (SetFace_updated_has_face (C := Reference.collaborators)
            Reference.marker_unmatched Reference.face_alice Reference.half64
            (Reference.world_of Reference.store1) _ _).
  - vm_compute. discriminate.
  - vm_compute. reflexivity.
Defined.


Lemma SetFace_explicit_distance_witness :
  FaceDist (result_marker (SetFace (C := Reference.collaborators)
                             Reference.marker_unmatched (Some Reference.face_alice)
                             Reference.half64 (Reference.world_of Reference.store1))) =
  Reference.half64.
Proof.
  refine (SetFace_explicit_distance (C := Reference.collaborators)
            Reference.marker_unmatched Reference.face_alice Reference.half64
            (Reference.world_of Reference.store1) _ _); reflexivity.
Defined.

Lemma HasFace_monotone_witness :
  HasFace Reference.marker_alice (Some Reference.face_bob) Reference.five64 = true.
Proof.
  refine (HasFace_monotone Reference.marker_alice (Some Reference.face_bob)
            Reference.half64 Reference.five64 _ _ _); reflexivity.
Defined.

Lemma GetFace_low_quality_witness :
  GetFace (C := Reference.collaborators) Reference.marker_small
    (Reference.world_of Reference.store1) =
  ((None, Reference.marker_small), Reference.world_of Reference.store1).
Proof.
  refine (GetFace_low_quality (C := Reference.collaborators) Reference.marker_small
            (Reference.world_of Reference.store1) _ _ _ _); try reflexivity.
  left. vm_compute. reflexivity.
Defined.

Lemma ClearSubject_cleared_witness :
  let r := ClearSubject (C := Reference.collaborators) Reference.marker_alice "manual"
             (Reference.world_of Reference.store1) in
  MarkerName (fst (fst r)) = "" /\ FaceID (fst (fst r)) = "" /\
  FaceRef (fst (fst r)) = None /\ FaceDist (fst (fst r)) = F64.minus_one /\
  SubjectUID (fst (fst r)) = "" /\ SubjectSrc (fst (fst r)) = "manual" /\
  (calls (snd r) = [] \/
   exists f e, calls (snd r) = [CallReportCollision f e]).
Proof.
  refine (ClearSubject_cleared (C := Reference.collaborators) Reference.marker_alice
            "manual" (Reference.world_of Reference.store1) _).
  reflexivity.
Defined.


Lemma UpdateOrCreateMarker_twice_witness :
  let r1 := UpdateOrCreateMarker (C := Reference.collaborators) Reference.marker0
              (Reference.world_of Reference.empty_store) in
  let r2 := UpdateOrCreateMarker (C := Reference.collaborators) Reference.marker0
              (snd r1) in
  snd (fst r1) = None /\
  snd (fst r2) = None /\
  fst (fst r2) = row_of (fst (fst r1)) /\
  markers (store (snd r2)) = markers (store (snd r1)) /\
  List.length (markers (store (snd r2))) = 1%nat.
Proof.
  refine (UpdateOrCreateMarker_twice (C := Reference.collaborators) Reference.marker0
            (Reference.world_of Reference.empty_store) _ _ _ _ _); reflexivity.
Defined.

Lemma UpdateOrCreateMarker_overwrite_unchecked_witness :
  exists err w',
    UpdateOrCreateMarker (C := Reference.collaborators) Reference.marker_edge
      (Reference.world_of Reference.store_edge) =
    ((overwrite Reference.marker_edge Reference.marker_near_edge, err), w') /\
    invalid_position (overwrite Reference.marker_edge Reference.marker_near_edge) = true /\
    (err = None ->
     forall r, In r (markers (store w')) -> ID r = 5%N ->
               X r = F32.zero /\ Y r = Reference.quarter32 /\ invalid_position r = true).
Proof.
  refine (UpdateOrCreateMarker_overwrite_unchecked (C := Reference.collaborators)
            Reference.marker_edge Reference.marker_near_edge
            (Reference.world_of Reference.store_edge) Reference.store_edge _ _ _);
    reflexivity.
Defined.

Lemma SyncSubject_storage_failure_witness :
  exists w',
    SyncSubject (C := Reference.collaborators) Reference.marker_alice true
      (Reference.world_of Reference.store1_failing) =
    ((Reference.marker_alice,
      Some (Errorf "lock wait timeout (update related markers)")), w') /\
    faces (store w') = [set_face_SubjectUID "S-alice" Reference.face1; Reference.face_bob] /\
    markers (store w') = markers Reference.store1.
Proof.
  refine (proj2 (SyncSubject_storage_failure (C := Reference.collaborators)
                   Reference.marker_alice (Reference.world_of Reference.store1_failing)
                   Reference.alice Reference.marker_alice Reference.marker_alice
                   (Reference.world_of Reference.store1_failing)
                   (Reference.world_of Reference.store1_failing) _ _ _ _ _)
                "lock wait timeout" [] _);
    (reflexivity || (vm_compute; discriminate)).
Defined.

(** ** Sample runs *)

(** A NaN coordinate passes the position test of [Save] and [Create]: every
    comparison with NaN is false. *)
Example invalid_position_nan :
  invalid_position (set_X S754_nan Reference.marker0) = false.
Proof. reflexivity. Qed.

(** A negative zero is a zero. *)
Example invalid_position_negative_zero :
  invalid_position (set_Y (S754_zero true) Reference.marker0) = true.
Proof. reflexivity. Qed.

Example Save_rejects_edge :
  Save Reference.marker_edge (Reference.world_of Reference.store1) =
  ((Reference.marker_edge, Some err_invalid_position), Reference.world_of Reference.store1).
Proof. reflexivity. Qed.

Example Save_stores_marker0 :
  let r := Save Reference.marker0 (Reference.world_of Reference.empty_store) in
  snd (fst r) = None /\ markers (store (snd r)) = [row_of (set_ID 1 Reference.marker0)].
Proof. split; reflexivity. Qed.

(** The tolerance of the near-duplicate test is the [float32] nearest to 0.07. *)
Example dedup_tolerance_value : dedup_tolerance = S754_finite false 9395241 (-27).
Proof. reflexivity. Qed.

(** [ClearFace] on marker 2, whose subject was set automatically, empties
    the face and the subject of its row; on marker 3, whose subject was set
    manually, it empties the face only. *)
Example ClearFace_automatic :
  let r := ClearFace (C := Reference.collaborators) Reference.marker_auto
             (Reference.world_of Reference.store1) in
  snd (fst (fst r)) = true /\ snd (fst r) = None /\
  map (fun x => (ID x, FaceID x, SubjectUID x, SubjectSrc x)) (markers (store (snd r))) =
  [(1%N, "F1", "S-alice", "manual"); (2%N, "", "", ""); (3%N, "F1", "S-bob", "manual")].
Proof. repeat split. Qed.

Example ClearFace_manual :
  let r := ClearFace (C := Reference.collaborators) Reference.marker_manual
             (Reference.world_of Reference.store1) in
  snd (fst (fst r)) = true /\ snd (fst r) = None /\
  map (fun x => (ID x, FaceID x, SubjectUID x, SubjectSrc x)) (markers (store (snd r))) =
  [(1%N, "F1", "S-alice", "manual"); (2%N, "F1", "S-bob", ""); (3%N, "", "S-bob", "manual")].
Proof. repeat split. Qed.

(** [ClearSubject] on marker 1, whose face F1 is found: the collision is
    reported and the cleared fields are written to the marker's row. *)
Example ClearSubject_face_found :
  let r := ClearSubject (C := Reference.collaborators) Reference.marker_alice "manual"
             (Reference.world_of Reference.store1) in
  snd (fst r) = None /\
  calls (snd r) = [CallReportCollision Reference.face1 Reference.embeddings_parsed] /\
  map (fun x => (ID x, MarkerName x, FaceID x, SubjectUID x, SubjectSrc x))
      (markers (store (snd r))) =
  [(1%N, "", "", "", "manual"); (2%N, "", "F1", "S-bob", "");
   (3%N, "", "F1", "S-bob", "manual")].
Proof. repeat split. Qed.

(** The distance of the embedding (3, 4) from the origin. *)
Example euclidean_3_4 :
  Reference.euclidean [Reference.three64; Reference.four64] [F64.zero; F64.zero] =
  Reference.five64.
Proof. reflexivity. Qed.
